(** * Agentic Test Case Generator: the client workflow of [frontend/src/App.jsx]

    A shallow embedding of the React component [App]: its state (the
    [useState] cells), its event handlers ([toggleRowExpansion],
    [parseRequirements], [generateTestCases], [exportToJira],
    [exportToFormat], [goNext], [goPrev]) and the parts of the rendered view
    that decide which handler a click reaches.  The backend (FastAPI routes
    and the ADK agents) is not part of the sources at hand; the Validation
    Gate of the specification is modelled from the specification's words in
    [Module ValidationGate]. *)

From Stdlib Require Import ZArith NArith String Ascii.
From stdpp Require Import base option list gmap.

Local Open Scope N_scope.

(** ** JavaScript strings

    A JS string is a sequence of UTF-16 code units. *)

Definition jsstring : Type := list N.

(** An ASCII literal as a JS string. *)
Definition js (s : string) : jsstring :=
  N_of_ascii <$> list_ascii_of_string s.

(** [WhiteSpace] and [LineTerminator] of ECMAScript, the code units that
    [String.prototype.trim] strips and that the regular expression class
    [\s] matches: TAB, LF, VT, FF, CR, SP, NBSP, the Unicode space
    separators (category Zs), LS, PS and ZWNBSP. *)
Definition is_white_space (c : N) : bool :=
  (9 <=? c) && (c <=? 13)
  || (c =? 32) || (c =? 160) || (c =? 5760)
  || (8192 <=? c) && (c <=? 8202)
  || (c =? 8232) || (c =? 8233) || (c =? 8239) || (c =? 8287)
  || (c =? 12288) || (c =? 65279).

Fixpoint drop_while {A} (p : A -> bool) (l : list A) : list A :=
  match l with
  | [] => []
  | x :: l' => if p x then drop_while p l' else l
  end.

(** [s.trim()] *)
Definition trim (s : jsstring) : jsstring :=
  reverse (drop_while is_white_space (reverse (drop_while is_white_space s))).

(** Truthiness of a string: only the empty string is falsy. *)
Definition truthy (s : jsstring) : bool :=
  match s with [] => false | _ :: _ => true end.

(** [s.split(sep)] for a one-unit separator. *)
Fixpoint split_on (sep : N) (s : jsstring) : list jsstring :=
  match s with
  | [] => [[]]
  | c :: s' =>
      if c =? sep then [] :: split_on sep s'
      else match split_on sep s' with
           | [] => [[c]]
           | w :: ws => (c :: w) :: ws
           end
  end.

(** [s.toUpperCase()], exact on strings of ASCII code units (the format
    names the export buttons pass are such strings). *)
Definition toUpperCase (s : jsstring) : jsstring :=
  (fun c => if (97 <=? c) && (c <=? 122) then c - 32 else c) <$> s.

(** ** Values read from JSON

    A property of an object parsed from JSON is absent ([undefined] when
    read), [null], or holds a value. *)

Inductive field (A : Type) : Type :=
| Undefined
| Null
| Val (a : A).
Arguments Undefined {A}.
Arguments Null {A}.
Arguments Val {A} a.

(** [x || d] for a string-valued property: [undefined], [null] and the empty
    string are falsy. *)
Definition or_else (x : field jsstring) (d : jsstring) : jsstring :=
  match x with
  | Val (c :: s) => c :: s
  | _ => d
  end.

(** [x || []] for an array-valued property: every array is truthy. *)
Definition or_empty {A} (x : field (list A)) : list A :=
  match x with
  | Val l => l
  | _ => []
  end.

(** A property spliced into a template literal: [`${x}`]. *)
Definition to_template (x : field jsstring) : jsstring :=
  match x with
  | Undefined => js "undefined"
  | Null => js "null"
  | Val s => s
  end.

(** [x || null] for a state string sent in a JSON payload: [None] is
    [null]. *)
Definition or_null (s : jsstring) : option jsstring :=
  if truthy s then Some s else None.

(** ** Data model (the objects the backend returns, [app/models.py]) *)

Record Requirement := {
  req_id : jsstring;
  req_text : jsstring
}.

Record TestStep := {
  step : field Z;
  action : field jsstring;
  expected : field jsstring;
  step_test_data : field jsstring
}.

Record TestCase := {
  tc_id : jsstring;
  title : field jsstring;
  description : field jsstring;
  priority : field jsstring;
  type : field jsstring;
  tc_status : field jsstring;
  preconditions : field jsstring;
  steps : field (list TestStep);
  expected_result : field jsstring;
  test_data : field jsstring;
  estimated_time : field jsstring;
  automation_status : field jsstring;
  component : field jsstring;
  tags : field (list jsstring)
}.

(** The file chosen in the upload input. *)
Record File := {
  file_name : jsstring;
  file_bytes : list N
}.

(** ** Component state: one field per [useState] cell *)

Record State := {
  file : option File;
  rawText : jsstring;
  requirements : list Requirement;
  activeTab : Z;
  appLink : jsstring;
  prototypeLink : jsstring;
  diagramLinks : jsstring;
  imageLinks : jsstring;
  templateName : jsstring;
  templateFormat : jsstring;
  testCases : list TestCase;
  jiraProject : jsstring;
  jiraIssueType : jsstring;
  status : jsstring;
  feedback : jsstring;
  reqFeedback : jsstring;
  expandedRows : gmap jsstring bool;
  isGenerating : bool;
  isParsing : bool;
  isExporting : bool;
  exportFormat : jsstring
}.

(** The state of the first render. *)
Definition initial : State := {|
  file := None;
  rawText := [];
  requirements := [];
  activeTab := 0%Z;
  appLink := [];
  prototypeLink := [];
  diagramLinks := [];
  imageLinks := [];
  templateName := js "default";
  templateFormat := js "table";
  testCases := [];
  jiraProject := [];
  jiraIssueType := js "Test";
  status := [];
  feedback := [];
  reqFeedback := [];
  expandedRows := ∅;
  isGenerating := false;
  isParsing := false;
  isExporting := false;
  exportFormat := js "csv"
|}.

(** *** State setters

    [setX v] replaces one cell and leaves the other cells alone;
    [setActiveTab] and [setExpandedRows] are called with an updater function
    of the previous value. *)

Definition setRawText (v : jsstring) (st : State) : State :=
  {| file := file st; rawText := v; requirements := requirements st;
     activeTab := activeTab st; appLink := appLink st;
     prototypeLink := prototypeLink st; diagramLinks := diagramLinks st;
     imageLinks := imageLinks st; templateName := templateName st;
     templateFormat := templateFormat st; testCases := testCases st;
     jiraProject := jiraProject st; jiraIssueType := jiraIssueType st;
     status := status st; feedback := feedback st;
     reqFeedback := reqFeedback st; expandedRows := expandedRows st;
     isGenerating := isGenerating st; isParsing := isParsing st;
     isExporting := isExporting st; exportFormat := exportFormat st |}.

Definition setRequirements (v : list Requirement) (st : State) : State :=
  {| file := file st; rawText := rawText st; requirements := v;
     activeTab := activeTab st; appLink := appLink st;
     prototypeLink := prototypeLink st; diagramLinks := diagramLinks st;
     imageLinks := imageLinks st; templateName := templateName st;
     templateFormat := templateFormat st; testCases := testCases st;
     jiraProject := jiraProject st; jiraIssueType := jiraIssueType st;
     status := status st; feedback := feedback st;
     reqFeedback := reqFeedback st; expandedRows := expandedRows st;
     isGenerating := isGenerating st; isParsing := isParsing st;
     isExporting := isExporting st; exportFormat := exportFormat st |}.

Definition setTestCases (v : list TestCase) (st : State) : State :=
  {| file := file st; rawText := rawText st; requirements := requirements st;
     activeTab := activeTab st; appLink := appLink st;
     prototypeLink := prototypeLink st; diagramLinks := diagramLinks st;
     imageLinks := imageLinks st; templateName := templateName st;
     templateFormat := templateFormat st; testCases := v;
     jiraProject := jiraProject st; jiraIssueType := jiraIssueType st;
     status := status st; feedback := feedback st;
     reqFeedback := reqFeedback st; expandedRows := expandedRows st;
     isGenerating := isGenerating st; isParsing := isParsing st;
     isExporting := isExporting st; exportFormat := exportFormat st |}.

Definition setStatus (v : jsstring) (st : State) : State :=
  {| file := file st; rawText := rawText st; requirements := requirements st;
     activeTab := activeTab st; appLink := appLink st;
     prototypeLink := prototypeLink st; diagramLinks := diagramLinks st;
     imageLinks := imageLinks st; templateName := templateName st;
     templateFormat := templateFormat st; testCases := testCases st;
     jiraProject := jiraProject st; jiraIssueType := jiraIssueType st;
     status := v; feedback := feedback st; reqFeedback := reqFeedback st;
     expandedRows := expandedRows st; isGenerating := isGenerating st;
     isParsing := isParsing st; isExporting := isExporting st;
     exportFormat := exportFormat st |}.

Definition setFeedback (v : jsstring) (st : State) : State :=
  {| file := file st; rawText := rawText st; requirements := requirements st;
     activeTab := activeTab st; appLink := appLink st;
     prototypeLink := prototypeLink st; diagramLinks := diagramLinks st;
     imageLinks := imageLinks st; templateName := templateName st;
     templateFormat := templateFormat st; testCases := testCases st;
     jiraProject := jiraProject st; jiraIssueType := jiraIssueType st;
     status := status st; feedback := v; reqFeedback := reqFeedback st;
     expandedRows := expandedRows st; isGenerating := isGenerating st;
     isParsing := isParsing st; isExporting := isExporting st;
     exportFormat := exportFormat st |}.

Definition setReqFeedback (v : jsstring) (st : State) : State :=
  {| file := file st; rawText := rawText st; requirements := requirements st;
     activeTab := activeTab st; appLink := appLink st;
     prototypeLink := prototypeLink st; diagramLinks := diagramLinks st;
     imageLinks := imageLinks st; templateName := templateName st;
     templateFormat := templateFormat st; testCases := testCases st;
     jiraProject := jiraProject st; jiraIssueType := jiraIssueType st;
     status := status st; feedback := feedback st; reqFeedback := v;
     expandedRows := expandedRows st; isGenerating := isGenerating st;
     isParsing := isParsing st; isExporting := isExporting st;
     exportFormat := exportFormat st |}.

Definition setIsGenerating (v : bool) (st : State) : State :=
  {| file := file st; rawText := rawText st; requirements := requirements st;
     activeTab := activeTab st; appLink := appLink st;
     prototypeLink := prototypeLink st; diagramLinks := diagramLinks st;
     imageLinks := imageLinks st; templateName := templateName st;
     templateFormat := templateFormat st; testCases := testCases st;
     jiraProject := jiraProject st; jiraIssueType := jiraIssueType st;
     status := status st; feedback := feedback st;
     reqFeedback := reqFeedback st; expandedRows := expandedRows st;
     isGenerating := v; isParsing := isParsing st;
     isExporting := isExporting st; exportFormat := exportFormat st |}.

Definition setIsParsing (v : bool) (st : State) : State :=
  {| file := file st; rawText := rawText st; requirements := requirements st;
     activeTab := activeTab st; appLink := appLink st;
     prototypeLink := prototypeLink st; diagramLinks := diagramLinks st;
     imageLinks := imageLinks st; templateName := templateName st;
     templateFormat := templateFormat st; testCases := testCases st;
     jiraProject := jiraProject st; jiraIssueType := jiraIssueType st;
     status := status st; feedback := feedback st;
     reqFeedback := reqFeedback st; expandedRows := expandedRows st;
     isGenerating := isGenerating st; isParsing := v;
     isExporting := isExporting st; exportFormat := exportFormat st |}.

Definition setIsExporting (v : bool) (st : State) : State :=
  {| file := file st; rawText := rawText st; requirements := requirements st;
     activeTab := activeTab st; appLink := appLink st;
     prototypeLink := prototypeLink st; diagramLinks := diagramLinks st;
     imageLinks := imageLinks st; templateName := templateName st;
     templateFormat := templateFormat st; testCases := testCases st;
     jiraProject := jiraProject st; jiraIssueType := jiraIssueType st;
     status := status st; feedback := feedback st;
     reqFeedback := reqFeedback st; expandedRows := expandedRows st;
     isGenerating := isGenerating st; isParsing := isParsing st;
     isExporting := v; exportFormat := exportFormat st |}.

Definition setActiveTab (f : Z -> Z) (st : State) : State :=
  {| file := file st; rawText := rawText st; requirements := requirements st;
     activeTab := f (activeTab st); appLink := appLink st;
     prototypeLink := prototypeLink st; diagramLinks := diagramLinks st;
     imageLinks := imageLinks st; templateName := templateName st;
     templateFormat := templateFormat st; testCases := testCases st;
     jiraProject := jiraProject st; jiraIssueType := jiraIssueType st;
     status := status st; feedback := feedback st;
     reqFeedback := reqFeedback st; expandedRows := expandedRows st;
     isGenerating := isGenerating st; isParsing := isParsing st;
     isExporting := isExporting st; exportFormat := exportFormat st |}.

Definition setExpandedRows (f : gmap jsstring bool -> gmap jsstring bool)
    (st : State) : State :=
  {| file := file st; rawText := rawText st; requirements := requirements st;
     activeTab := activeTab st; appLink := appLink st;
     prototypeLink := prototypeLink st; diagramLinks := diagramLinks st;
     imageLinks := imageLinks st; templateName := templateName st;
     templateFormat := templateFormat st; testCases := testCases st;
     jiraProject := jiraProject st; jiraIssueType := jiraIssueType st;
     status := status st; feedback := feedback st;
     reqFeedback := reqFeedback st; expandedRows := f (expandedRows st);
     isGenerating := isGenerating st; isParsing := isParsing st;
     isExporting := isExporting st; exportFormat := exportFormat st |}.

(** ** Row expansion *)

(** The properties every object literal inherits from [Object.prototype];
    each of them reads as a truthy value (a function, or the prototype
    itself for [__proto__]). *)
Definition object_prototype_keys : list jsstring :=
  js <$> ["constructor"; "hasOwnProperty"; "isPrototypeOf";
          "propertyIsEnumerable"; "toLocaleString"; "toString"; "valueOf";
          "__defineGetter__"; "__defineSetter__"; "__lookupGetter__";
          "__lookupSetter__"; "__proto__"]%string.

(** Truthiness of [obj[id]]: the own property when there is one, else what
    the prototype gives, else [undefined]. *)
Definition is_expanded (obj : gmap jsstring bool) (id : jsstring) : bool :=
  match obj !! id with
  | Some b => b
  | None => bool_decide (id ∈ object_prototype_keys)
  end.

(** [setExpandedRows(prev => ({ ...prev, [id]: !prev[id] }))] *)
Definition toggleRowExpansion (id : jsstring) (st : State) : State :=
  setExpandedRows (fun prev => <[id := negb (is_expanded prev id)]> prev) st.

(** ** Tabs and navigation *)

Record Tab := {
  tab_id : Z;
  tab_label : jsstring;
  tab_title : jsstring
}.

Definition tabs : list Tab := [
  {| tab_id := 0; tab_label := js "Upload"; tab_title := js "Upload Requirements" |};
  {| tab_id := 1; tab_label := js "Context"; tab_title := js "Context Inputs" |};
  {| tab_id := 2; tab_label := js "Template"; tab_title := js "Template Setup" |};
  {| tab_id := 3; tab_label := js "Generate"; tab_title := js "Generate Test Cases" |};
  {| tab_id := 4; tab_label := js "Export"; tab_title := js "Export Test Cases" |};
  {| tab_id := 5; tab_label := js "Automation"; tab_title := js "Playwright POM" |}
].

(** [setActiveTab((prev) => Math.min(prev + 1, tabs.length - 1))] *)
Definition goNext (st : State) : State :=
  setActiveTab (fun prev => Z.min (prev + 1) (Z.of_nat (length tabs) - 1)) st.

(** [setActiveTab((prev) => Math.max(prev - 1, 0))] *)
Definition goPrev (st : State) : State :=
  setActiveTab (fun prev => Z.max (prev - 1) 0) st.

(** The [onClick] of a tab button: [setActiveTab(tab.id)]. *)
Definition clickTab (tab : Tab) (st : State) : State :=
  setActiveTab (fun _ => tab_id tab) st.

(** A navigation click: the Next or Back button of a panel, or the [i]-th
    button of the tab bar (one button per element of [tabs]). *)
Inductive NavEvent :=
| ClickNext
| ClickPrev
| ClickTab (i : nat).

Definition navigate (st : State) (e : NavEvent) : State :=
  match e with
  | ClickNext => goNext st
  | ClickPrev => goPrev st
  | ClickTab i =>
      match tabs !! i with
      | Some tab => clickTab tab st
      | None => st
      end
  end.

(** ** Table view of a test case

    The text of the priority, type, status and automation cells of a table
    row: [{tc.priority || "Medium"}], [{tc.type || "Functional"}],
    [{tc.status || "Draft"}], [{tc.automation_status || "Manual"}]. *)

Record RowCells := {
  cell_priority : jsstring;
  cell_type : jsstring;
  cell_status : jsstring;
  cell_automation : jsstring
}.

Definition table_row (tc : TestCase) : RowCells := {|
  cell_priority := or_else (priority tc) (js "Medium");
  cell_type := or_else (type tc) (js "Functional");
  cell_status := or_else (tc_status tc) (js "Draft");
  cell_automation := or_else (automation_status tc) (js "Manual")
|}.

(** ** HTTP requests and responses *)

(** A value appended to a [FormData]: a file, a string, or the string
    [JSON.stringify(requirements)], kept as the list it serialises. *)
Inductive FormValue :=
| FormFile (f : File)
| FormText (s : jsstring)
| FormStringified (rs : list Requirement).

Record Template := {
  name : jsstring;
  format : jsstring;
  fields : list jsstring
}.

Record Context := {
  ctx_requirements : list Requirement;
  app_link : option jsstring;
  prototype_link : option jsstring;
  diagram_links : option (list jsstring);
  image_links : option (list jsstring);
  notes : jsstring
}.

(** The object literals the handlers serialise with [JSON.stringify]. *)
Inductive Payload :=
| GeneratePayload (requirements : list Requirement) (template : Template)
    (context : Context) (feedback : option jsstring)
| JiraPayload (project_key issue_type : jsstring) (test_cases : list TestCase)
| ExportPayload (test_cases : list TestCase).

(** A request body: a [FormData] with its entries in the order they were
    appended, or [JSON.stringify(payload)]. *)
Inductive Body :=
| FormData (entries : list (jsstring * FormValue))
| JSON_stringify (payload : Payload).

Record Request := {
  url : jsstring;
  method : jsstring;
  headers : list (jsstring * jsstring);
  body : Body
}.

(** A JS [Error], observed through its [message]. *)
Record JsError := { message : jsstring }.

(** The object [res.json()] resolves to, seen through the properties the
    client reads; a property the body lacks is [Undefined].  (A body that
    parses to a JSON value other than an object has none of them; a body
    that parses to [null] is outside this model.) *)
Record JsonData := {
  data_raw_text : field jsstring;
  data_requirements : field (list Requirement);
  data_test_cases : field (list TestCase);
  data_status : field jsstring;
  data_message : field jsstring
}.

Definition Blob : Type := list N.

(** A response: [res.ok], and what [res.text()], [res.json()] and
    [res.blob()] give; [res_json] is the error [res.json()] rejects with when
    the body is not JSON. *)
Record Response := {
  ok : bool;
  res_text : jsstring;
  res_json : JsError + JsonData;
  res_blob : Blob
}.

(** What [await fetch(...)] does: the promise rejects (network failure,
    aborted or timed-out connection) or resolves to a response. *)
Inductive FetchResult :=
| Rejected (e : JsError)
| Resolved (res : Response).

(** ** Handlers as programs

    An [async] handler is a tree of the effects it performs: state-setter
    calls, one awaited [fetch] whose result the rest of the handler depends
    on, a file download, and it ends by returning or by throwing. *)

Inductive prog (A : Type) : Type :=
| Ret (a : A)
| Throw (e : JsError)
| SetState (f : State -> State) (k : prog A)
| Await (r : Request) (k : FetchResult -> prog A)
| Download (filename : jsstring) (b : Blob) (k : prog A).
Arguments Ret {A} a.
Arguments Throw {A} e.
Arguments SetState {A} f k.
Arguments Await {A} r k.
Arguments Download {A} filename b k.

Fixpoint prog_bind {A B} (f : A -> prog B) (p : prog A) : prog B :=
  match p with
  | Ret a => f a
  | Throw e => Throw e
  | SetState g k => SetState g (prog_bind f k)
  | Await r k => Await r (fun x => prog_bind f (k x))
  | Download n b k => Download n b (prog_bind f k)
  end.

#[global] Instance prog_mret : MRet prog := @Ret.
#[global] Instance prog_mbind : MBind prog := @prog_bind.

(** [try { p } catch (error) { h error }] *)
Fixpoint try_catch {A} (p : prog A) (h : JsError -> prog A) : prog A :=
  match p with
  | Ret a => Ret a
  | Throw e => h e
  | SetState g k => SetState g (try_catch k h)
  | Await r k => Await r (fun x => try_catch (k x) h)
  | Download n b k => Download n b (try_catch k h)
  end.

(** [try { p } finally { fin }] *)
Fixpoint try_finally {A} (p : prog A) (fin : prog unit) : prog A :=
  match p with
  | Ret a => fin;; Ret a
  | Throw e => fin;; Throw e
  | SetState g k => SetState g (try_finally k fin)
  | Await r k => Await r (fun x => try_finally (k x) fin)
  | Download n b k => Download n b (try_finally k fin)
  end.

(** A state-setter call. *)
Definition set (f : State -> State) : prog unit := SetState f (Ret tt).

(** [await fetch(url, init)] *)
Definition fetch (r : Request) : prog Response :=
  Await r (fun x =>
    match x with
    | Rejected e => Throw e
    | Resolved res => Ret res
    end).

(** [await res.json()] *)
Definition json (res : Response) : prog JsonData :=
  match res_json res with
  | inl e => Throw e
  | inr data => Ret data
  end.

(** The anchor-element download of [exportToFormat]: an object URL for the
    blob, an [<a>] with that [href] and the given [download] name, clicked
    and removed. *)
Definition download (filename : jsstring) (b : Blob) : prog unit :=
  Download filename b (Ret tt).

(** *** Running a handler

    [run net p st] runs [p] from state [st] against a network that answers
    request [r] with [net r]; it gives the final state, the requests issued
    and the files downloaded in order, and how the handler ended ([inl e]:
    the promise it returned rejects with [e]). *)

Record Outcome (A : Type) := {
  final : State;
  requests : list Request;
  downloads : list (jsstring * Blob);
  result : JsError + A
}.
Arguments final {A}.
Arguments requests {A}.
Arguments downloads {A}.
Arguments result {A}.

Fixpoint run {A} (net : Request -> FetchResult) (p : prog A) (st : State)
    : Outcome A :=
  match p with
  | Ret a => {| final := st; requests := []; downloads := []; result := inr a |}
  | Throw e => {| final := st; requests := []; downloads := []; result := inl e |}
  | SetState f k => run net k (f st)
  | Await r k =>
      let o := run net (k (net r)) st in
      {| final := final o; requests := r :: requests o;
         downloads := downloads o; result := result o |}
  | Download n b k =>
      let o := run net k st in
      {| final := final o; requests := requests o;
         downloads := (n, b) :: downloads o; result := result o |}
  end.

(** ** The handlers of [App]

    A handler closes over the state of the render it was created in: it
    reads [st], the state at the click, and writes through the setters. *)

Section Client.

(** [import.meta.env.VITE_API_BASE], fixed at build time. *)
Variable VITE_API_BASE : field jsstring.

Definition API_BASE : jsstring :=
  or_else VITE_API_BASE (js "http://localhost:8000").

Definition parseRequirements (withFeedback : bool) (st : State) : prog unit :=
  if negb (bool_decide (is_Some (file st))) && negb withFeedback then Ret tt
  else
    set (setIsParsing true);;
    set (setStatus (if withFeedback
                    then js "Refining requirements with feedback..."
                    else js "Parsing requirements..."));;
    try_finally
      (try_catch
         (let formData :=
            match file st with
            | Some f => [(js "file", FormFile f)]
            | None => []
            end
            ++ (if withFeedback && truthy (reqFeedback st)
                then [(js "feedback", FormText (reqFeedback st));
                      (js "existing_requirements",
                       FormStringified (requirements st))]
                else []) in
          res ← fetch {| url := API_BASE ++ js "/requirements/parse";
                         method := js "POST";
                         headers := [];
                         body := FormData formData |};
          (if negb (ok res)
           then let errorText := res_text res in
                Throw {| message := if truthy errorText then errorText
                                    else js "Failed to parse requirements" |}
           else Ret tt);;
          data ← json res;
          set (setRawText (or_else (data_raw_text data) (rawText st)));;
          set (setRequirements (or_empty (data_requirements data)));;
          set (setStatus (if withFeedback then js "Requirements refined."
                          else js "Parsed."));;
          (if withFeedback then set (setReqFeedback []) else Ret tt))
         (fun error => set (setStatus (js "Parse failed: " ++ message error))))
      (set (setIsParsing false)).

(** The [fields] array of the template in [generateTestCases]. *)
Definition template_fields : list jsstring :=
  js <$> ["id"; "title"; "description"; "priority"; "type"; "status";
          "preconditions"; "steps"; "expected_result"; "test_data";
          "estimated_time"; "automation_status"; "component"; "tags"]%string.

(** [links ? links.split(";").map((x) => x.trim()) : null] *)
Definition split_links (links : jsstring) : option (list jsstring) :=
  if truthy links then Some (trim <$> split_on 59 links) else None.

Definition generateTestCases (withFeedback : bool) (st : State) : prog unit :=
  set (setIsGenerating true);;
  set (setStatus (if withFeedback
                  then js "Refining test cases with feedback..."
                  else js "Generating test cases..."));;
  try_finally
    (let payload :=
       GeneratePayload
         (requirements st)
         {| name := templateName st;
            format := templateFormat st;
            fields := template_fields |}
         {| ctx_requirements := requirements st;
            app_link := or_null (appLink st);
            prototype_link := or_null (prototypeLink st);
            diagram_links := split_links (diagramLinks st);
            image_links := split_links (imageLinks st);
            notes := js "Generated via UI" |}
         (if withFeedback && truthy (feedback st)
          then Some (feedback st) else None) in
     res ← fetch {| url := API_BASE ++ js "/testcases/generate";
                    method := js "POST";
                    headers := [(js "Content-Type", js "application/json")];
                    body := JSON_stringify payload |};
     data ← json res;
     set (setTestCases (or_empty (data_test_cases data)));;
     set (setStatus (if withFeedback then js "Test cases refined."
                     else js "Generated."));;
     (if withFeedback then set (setFeedback []) else Ret tt))
    (set (setIsGenerating false)).

Definition exportToJira (st : State) : prog unit :=
  set (setIsExporting true);;
  set (setStatus (js "Exporting to JIRA..."));;
  try_finally
    (let payload :=
       JiraPayload (jiraProject st) (jiraIssueType st) (testCases st) in
     res ← fetch {| url := API_BASE ++ js "/export/jira";
                    method := js "POST";
                    headers := [(js "Content-Type", js "application/json")];
                    body := JSON_stringify payload |};
     data ← json res;
     set (setStatus (to_template (data_status data) ++ js ": "
                     ++ to_template (data_message data))))
    (set (setIsExporting false)).

(** [const extensions = { csv: "csv", excel: "xlsx", json: "json" }] *)
Definition extensions : gmap jsstring jsstring :=
  {[ js "csv" := js "csv"; js "excel" := js "xlsx"; js "json" := js "json" ]}.

(** [`test_cases.${extensions[format] || format}`]; exact for every
    [format] that is not one of [object_prototype_keys]. *)
Definition download_name (format : jsstring) : jsstring :=
  js "test_cases."
  ++ or_else (from_option Val Undefined (extensions !! format)) format.

Definition exportToFormat (format : jsstring) (st : State) : prog unit :=
  set (setIsExporting true);;
  set (setStatus (js "Exporting to " ++ toUpperCase format ++ js "..."));;
  try_finally
    (try_catch
       (let payload := ExportPayload (testCases st) in
        res ← fetch {| url := API_BASE ++ js "/export/" ++ format;
                       method := js "POST";
                       headers := [(js "Content-Type", js "application/json")];
                       body := JSON_stringify payload |};
        (if negb (ok res) then Throw {| message := js "Export failed" |}
         else Ret tt);;
        let blob := res_blob res in
        download (download_name format) blob;;
        set (setStatus ([10003] ++ js " Exported to " ++ toUpperCase format
                        ++ js " successfully")))
       (fun error => set (setStatus (js "Export failed: " ++ message error))))
    (set (setIsExporting false)).

(** ** The feedback buttons of the view

    A button of the rendered view: its [disabled] attribute and its
    [onClick].  A click on a disabled button, or on a button the view does
    not render, reaches no handler. *)

Record Button := {
  disabled : bool;
  onClick : prog unit
}.

Definition click (b : option Button) : prog unit :=
  match b with
  | Some b => if disabled b then Ret tt else onClick b
  | None => Ret tt
  end.

(** "Implement Changes" of the Upload panel, rendered on tab 0 once
    [requirements.length > 0]. *)
Definition reqFeedbackButton (st : State) : option Button :=
  if (activeTab st =? 0)%Z && (0 <? length (requirements st))%nat
  then Some {| disabled :=
                 negb (truthy (trim (reqFeedback st))) || isParsing st;
               onClick := parseRequirements true st |}
  else None.

(** "Implement Changes" of the Generate panel, rendered on tab 3 once
    [testCases.length > 0]. *)
Definition feedbackButton (st : State) : option Button :=
  if (activeTab st =? 3)%Z && (0 <? length (testCases st))%nat
  then Some {| disabled :=
                 negb (truthy (trim (feedback st))) || isGenerating st;
               onClick := generateTestCases true st |}
  else None.

End Client.

(** ** The Validation Gate (specification §4.2, §4.3, §5) *)

Module ValidationGate.

Section Gate.

Context {Input Artifact : Type}.

(** Modelled from the spec: the critique a Validator step emits, "either an
    approval signal or a structured list of deficiencies"
    ([{approved: bool, deficiencies: sequence of string}]); the backend
    agents that implement it ([app/agents/test_case_agent.py]) are not
    among the sources. *)
Record Critique := {
  approved : bool;
  deficiencies : list jsstring
}.

(** Modelled from the spec: the Generation Provider interface of §4.3 at the
    test-case kind, the provider implementation being external; [None] is
    [ParseFailure]. *)
Record Provider := {
  produce : Input -> option Artifact;
  critique : Artifact -> Critique;
  revise : Artifact -> list jsstring -> option Artifact
}.

(** Modelled from the spec: the states of the gate's state machine,
    [Generated → Validating → {Approved, NeedsRevision}],
    [NeedsRevision → Regenerating → Validating], terminal [Approved] or
    [MaxIterationsExceeded]; the backend loop is not among the sources.
    [Requested] is the state before the first [produce] call, and
    [ProviderError] the explicit failure of §4.1 when a provider call
    returns [ParseFailure]. *)
Inductive Phase :=
| Requested (i : Input)
| Generated (a : Artifact)
| Validating (a : Artifact)
| NeedsRevision (a : Artifact) (ds : list jsstring)
| Regenerating (a : Artifact) (ds : list jsstring)
| Approved (a : Artifact)
| MaxIterationsExceeded (a : Artifact)
| ProviderError.

(** Modelled from the spec: a gate in flight, the backend loop being absent
    from the sources: its phase, the number of completed
    Validating↔Regenerating cycles, and the provider calls made so far. *)
Record Gate := {
  phase : Phase;
  cycles : nat;
  produce_calls : nat;
  critique_calls : nat;
  revise_calls : nat
}.

(** Modelled from the spec: the terminal states of §4.2, [Approved] and
    [MaxIterationsExceeded], and the explicit failure of §4.1; the backend
    loop is absent from the sources. *)
Definition is_terminal (p : Phase) : bool :=
  match p with
  | Approved _ | MaxIterationsExceeded _ | ProviderError => true
  | _ => false
  end.

Variable P : Provider.

(** The configured maximum number of Validating↔Regenerating cycles. *)
Variable iteration_cap : nat.

(** Modelled from the spec: one transition of the gate (§4.2), the backend
    loop being absent from the sources.  A Validator step inspects the
    current artifact unless the cap is used up, in which case the artifact
    at hand, the latest one produced, is returned tagged
    [MaxIterationsExceeded]; on deficiencies a Refiner step regenerates the
    artifact and control returns to [Validating].  With the cap checked
    before the critique a run makes at most [1 + 2 × iteration_cap] provider
    calls, as §5 states. *)
Definition step (g : Gate) : Gate :=
  match phase g with
  | Requested i =>
      {| phase := match produce P i with
                  | Some a => Generated a
                  | None => ProviderError
                  end;
         cycles := cycles g;
         produce_calls := S (produce_calls g);
         critique_calls := critique_calls g;
         revise_calls := revise_calls g |}
  | Generated a =>
      {| phase := Validating a; cycles := cycles g;
         produce_calls := produce_calls g;
         critique_calls := critique_calls g;
         revise_calls := revise_calls g |}
  | Validating a =>
      if (iteration_cap <=? cycles g)%nat
      then {| phase := MaxIterationsExceeded a; cycles := cycles g;
              produce_calls := produce_calls g;
              critique_calls := critique_calls g;
              revise_calls := revise_calls g |}
      else
        let c := critique P a in
        {| phase := if approved c then Approved a
                    else NeedsRevision a (deficiencies c);
           cycles := cycles g;
           produce_calls := produce_calls g;
           critique_calls := S (critique_calls g);
           revise_calls := revise_calls g |}
  | NeedsRevision a ds =>
      {| phase := Regenerating a ds; cycles := cycles g;
         produce_calls := produce_calls g;
         critique_calls := critique_calls g;
         revise_calls := revise_calls g |}
  | Regenerating a ds =>
      match revise P a ds with
      | Some a' =>
          {| phase := Validating a'; cycles := S (cycles g);
             produce_calls := produce_calls g;
             critique_calls := critique_calls g;
             revise_calls := S (revise_calls g) |}
      | None =>
          {| phase := ProviderError; cycles := cycles g;
             produce_calls := produce_calls g;
             critique_calls := critique_calls g;
             revise_calls := S (revise_calls g) |}
      end
  | Approved _ | MaxIterationsExceeded _ | ProviderError => g
  end.

(** Modelled from the spec: a gate at the moment a Generate call for test
    cases comes in, before any provider call; the backend loop is absent
    from the sources. *)
Definition start (i : Input) : Gate :=
  {| phase := Requested i; cycles := 0;
     produce_calls := 0; critique_calls := 0; revise_calls := 0 |}.

(** Modelled from the spec: [n] transitions in a row (the backend loop is
    absent from the sources). *)
Fixpoint steps (n : nat) (g : Gate) : Gate :=
  match n with
  | O => g
  | S n' => steps n' (step g)
  end.

(** Modelled from the spec: the gate as the caller sees it, run until a
    terminal state; the backend loop is absent from the sources.  Two
    transitions reach [Validating], each cycle takes three, and one more
    leaves [Validating] for a terminal state. *)
Definition validation_gate (i : Input) : Gate :=
  steps (3 + 3 * iteration_cap) (start i).

(** Modelled from the spec: the artifact after [k] regeneration cycles, the
    first-pass output revised [k] times with the Validator's deficiencies
    (§4.2: the Refiner has "the same contract as [Refine]" with
    machine-generated feedback). *)
Fixpoint revision (i : Input) (k : nat) : option Artifact :=
  match k with
  | O => produce P i
  | S k' =>
      match revision i k' with
      | Some a => revise P a (deficiencies (critique P a))
      | None => None
      end
  end.

End Gate.

End ValidationGate.

(** * The rest of the view

    The inputs, buttons and cells of [App] beyond the handlers above. *)

(** ** Setters of the input cells *)

Definition setFile (v : option File) (st : State) : State :=
  {| file := v; rawText := rawText st; requirements := requirements st;
     activeTab := activeTab st; appLink := appLink st;
     prototypeLink := prototypeLink st; diagramLinks := diagramLinks st;
     imageLinks := imageLinks st; templateName := templateName st;
     templateFormat := templateFormat st; testCases := testCases st;
     jiraProject := jiraProject st; jiraIssueType := jiraIssueType st;
     status := status st; feedback := feedback st;
     reqFeedback := reqFeedback st; expandedRows := expandedRows st;
     isGenerating := isGenerating st; isParsing := isParsing st;
     isExporting := isExporting st; exportFormat := exportFormat st |}.

Definition setAppLink (v : jsstring) (st : State) : State :=
  {| file := file st; rawText := rawText st; requirements := requirements st;
     activeTab := activeTab st; appLink := v;
     prototypeLink := prototypeLink st; diagramLinks := diagramLinks st;
     imageLinks := imageLinks st; templateName := templateName st;
     templateFormat := templateFormat st; testCases := testCases st;
     jiraProject := jiraProject st; jiraIssueType := jiraIssueType st;
     status := status st; feedback := feedback st;
     reqFeedback := reqFeedback st; expandedRows := expandedRows st;
     isGenerating := isGenerating st; isParsing := isParsing st;
     isExporting := isExporting st; exportFormat := exportFormat st |}.

Definition setPrototypeLink (v : jsstring) (st : State) : State :=
  {| file := file st; rawText := rawText st; requirements := requirements st;
     activeTab := activeTab st; appLink := appLink st; prototypeLink := v;
     diagramLinks := diagramLinks st; imageLinks := imageLinks st;
     templateName := templateName st; templateFormat := templateFormat st;
     testCases := testCases st; jiraProject := jiraProject st;
     jiraIssueType := jiraIssueType st; status := status st;
     feedback := feedback st; reqFeedback := reqFeedback st;
     expandedRows := expandedRows st; isGenerating := isGenerating st;
     isParsing := isParsing st; isExporting := isExporting st;
     exportFormat := exportFormat st |}.

Definition setDiagramLinks (v : jsstring) (st : State) : State :=
  {| file := file st; rawText := rawText st; requirements := requirements st;
     activeTab := activeTab st; appLink := appLink st;
     prototypeLink := prototypeLink st; diagramLinks := v;
     imageLinks := imageLinks st; templateName := templateName st;
     templateFormat := templateFormat st; testCases := testCases st;
     jiraProject := jiraProject st; jiraIssueType := jiraIssueType st;
     status := status st; feedback := feedback st;
     reqFeedback := reqFeedback st; expandedRows := expandedRows st;
     isGenerating := isGenerating st; isParsing := isParsing st;
     isExporting := isExporting st; exportFormat := exportFormat st |}.

Definition setImageLinks (v : jsstring) (st : State) : State :=
  {| file := file st; rawText := rawText st; requirements := requirements st;
     activeTab := activeTab st; appLink := appLink st;
     prototypeLink := prototypeLink st; diagramLinks := diagramLinks st;
     imageLinks := v; templateName := templateName st;
     templateFormat := templateFormat st; testCases := testCases st;
     jiraProject := jiraProject st; jiraIssueType := jiraIssueType st;
     status := status st; feedback := feedback st;
     reqFeedback := reqFeedback st; expandedRows := expandedRows st;
     isGenerating := isGenerating st; isParsing := isParsing st;
     isExporting := isExporting st; exportFormat := exportFormat st |}.

Definition setTemplateName (v : jsstring) (st : State) : State :=
  {| file := file st; rawText := rawText st; requirements := requirements st;
     activeTab := activeTab st; appLink := appLink st;
     prototypeLink := prototypeLink st; diagramLinks := diagramLinks st;
     imageLinks := imageLinks st; templateName := v;
     templateFormat := templateFormat st; testCases := testCases st;
     jiraProject := jiraProject st; jiraIssueType := jiraIssueType st;
     status := status st; feedback := feedback st;
     reqFeedback := reqFeedback st; expandedRows := expandedRows st;
     isGenerating := isGenerating st; isParsing := isParsing st;
     isExporting := isExporting st; exportFormat := exportFormat st |}.

Definition setTemplateFormat (v : jsstring) (st : State) : State :=
  {| file := file st; rawText := rawText st; requirements := requirements st;
     activeTab := activeTab st; appLink := appLink st;
     prototypeLink := prototypeLink st; diagramLinks := diagramLinks st;
     imageLinks := imageLinks st; templateName := templateName st;
     templateFormat := v; testCases := testCases st;
     jiraProject := jiraProject st; jiraIssueType := jiraIssueType st;
     status := status st; feedback := feedback st;
     reqFeedback := reqFeedback st; expandedRows := expandedRows st;
     isGenerating := isGenerating st; isParsing := isParsing st;
     isExporting := isExporting st; exportFormat := exportFormat st |}.

Definition setJiraProject (v : jsstring) (st : State) : State :=
  {| file := file st; rawText := rawText st; requirements := requirements st;
     activeTab := activeTab st; appLink := appLink st;
     prototypeLink := prototypeLink st; diagramLinks := diagramLinks st;
     imageLinks := imageLinks st; templateName := templateName st;
     templateFormat := templateFormat st; testCases := testCases st;
     jiraProject := v; jiraIssueType := jiraIssueType st;
     status := status st; feedback := feedback st;
     reqFeedback := reqFeedback st; expandedRows := expandedRows st;
     isGenerating := isGenerating st; isParsing := isParsing st;
     isExporting := isExporting st; exportFormat := exportFormat st |}.

Definition setJiraIssueType (v : jsstring) (st : State) : State :=
  {| file := file st; rawText := rawText st; requirements := requirements st;
     activeTab := activeTab st; appLink := appLink st;
     prototypeLink := prototypeLink st; diagramLinks := diagramLinks st;
     imageLinks := imageLinks st; templateName := templateName st;
     templateFormat := templateFormat st; testCases := testCases st;
     jiraProject := jiraProject st; jiraIssueType := v; status := status st;
     feedback := feedback st; reqFeedback := reqFeedback st;
     expandedRows := expandedRows st; isGenerating := isGenerating st;
     isParsing := isParsing st; isExporting := isExporting st;
     exportFormat := exportFormat st |}.

(** ** The file input

    [onChange={(e) => setFile(e.target.files?.[0] || null)}]: the first of
    the chosen files, or [null] when the choice is empty. *)
Definition onFileChange (files : list File) (st : State) : State :=
  setFile (head files) st.

(** ** Badge classes *)







(** ** The steps cell of a table row *)

(** [tc.steps?.slice(0, expandedRows[tc.id] ? undefined : 2)]: the steps
    listed in the cell; nothing is listed when [steps] is absent. *)
Definition shown_steps (st : State) (tc : TestCase) : list TestStep :=
  match steps tc with
  | Val l => if is_expanded (expandedRows st) (tc_id tc) then l else take 2 l
  | _ => []
  end.

(** [!expandedRows[tc.id] && tc.steps?.length > 2 && ...]: the number [n] of
    the line "+n more steps...", when the line is rendered. *)
Definition more_steps (st : State) (tc : TestCase) : option nat :=
  match steps tc with
  | Val l =>
      if negb (is_expanded (expandedRows st) (tc_id tc))
         && (2 <? length l)%nat
      then Some (length l - 2)%nat
      else None
  | _ => None
  end.

(** ** The card of a test case (any template format but "table")

    The header and meta line of a card render [{tc.priority}], [{tc.type}],
    [{tc.status}] and [{tc.estimated_time}] as they are: an absent value
    renders as no text. *)
Definition rendered (x : field jsstring) : jsstring :=
  match x with
  | Val s => s
  | _ => []
  end.

Record CardCells := {
  card_priority : jsstring;
  card_type : jsstring;
  card_status : jsstring;
  card_estimated_time : jsstring
}.

Definition card (tc : TestCase) : CardCells := {|
  card_priority := rendered (priority tc);
  card_type := rendered (type tc);
  card_status := rendered (tc_status tc);
  card_estimated_time := rendered (estimated_time tc)
|}.

(** The "Generated Test Cases" section: a helper text, the table, or the
    grid of cards. *)
Inductive ResultsView :=
| NoTestCases
| TableView (rows : list RowCells)
| GridView (cards : list CardCells).

Definition results_view (st : State) : ResultsView :=
  if (length (testCases st) =? 0)%nat then NoTestCases
  else if bool_decide (templateFormat st = js "table")
       then TableView (table_row <$> testCases st)
       else GridView (card <$> testCases st).

(** ** The other buttons *)

(** "Parse Requirements", on tab 0. *)
Definition parseButton (env : field jsstring) (st : State) : option Button :=
  if (activeTab st =? 0)%Z
  then Some {| disabled := negb (bool_decide (is_Some (file st)))
                           || isParsing st;
               onClick := parseRequirements env false st |}
  else None.

(** "Generate Test Cases", on tab 3. *)
Definition generateButton (env : field jsstring) (st : State)
    : option Button :=
  if (activeTab st =? 3)%Z
  then Some {| disabled := (length (requirements st) =? 0)%nat
                           || isGenerating st;
               onClick := generateTestCases env false st |}
  else None.

(** The formats of the three quick-export buttons. *)
Definition export_buttons : list jsstring :=
  [js "csv"; js "excel"; js "json"].

(** The [i]-th quick-export button, on tab 4. *)
Definition exportButton (env : field jsstring) (i : nat) (st : State)
    : option Button :=
  if (activeTab st =? 4)%Z
  then match export_buttons !! i with
       | Some format =>
           Some {| disabled := (length (testCases st) =? 0)%nat
                               || isExporting st;
                   onClick := exportToFormat env format st |}
       | None => None
       end
  else None.

(** "Export to JIRA", on tab 4. *)
Definition jiraButton (env : field jsstring) (st : State) : option Button :=
  if (activeTab st =? 4)%Z
  then Some {| disabled := (length (testCases st) =? 0)%nat
                           || negb (truthy (jiraProject st))
                           || isExporting st;
               onClick := exportToJira env st |}
  else None.

(** "Next" of a panel: tabs 0 to 4 have one; on tabs 3 and 4 it is disabled
    while there are no test cases. *)
Definition nextButton (st : State) : option Button :=
  if (0 <=? activeTab st)%Z && (activeTab st <=? 2)%Z
  then Some {| disabled := false; onClick := set goNext |}
  else if (activeTab st =? 3)%Z || (activeTab st =? 4)%Z
       then Some {| disabled := (length (testCases st) =? 0)%nat;
                    onClick := set goNext |}
       else None.

(** "Back" of a panel: tabs 1 to 5 have one. *)
Definition backButton (st : State) : option Button :=
  if (1 <=? activeTab st)%Z && (activeTab st <=? 5)%Z
  then Some {| disabled := false; onClick := set goPrev |}
  else None.

(** The [i]-th button of the tab bar. *)
Definition tabButton (i : nat) : option Button :=
  match tabs !! i with
  | Some tab => Some {| disabled := false; onClick := set (clickTab tab) |}
  | None => None
  end.

(** The [i]-th row of the table, whose click toggles its expansion; the
    table is there on tab 3 when there are test cases and the template
    format is "table". *)
Definition tableRow (i : nat) (st : State) : option Button :=
  if (activeTab st =? 3)%Z && bool_decide (templateFormat st = js "table")
  then match testCases st !! i with
       | Some tc =>
           Some {| disabled := false;
                   onClick := set (toggleRowExpansion (tc_id tc)) |}
       | None => None
       end
  else None.

(** ** Events

    What the user can do to the page: choose files, edit an input, click a
    button, a tab or a table row.  The one control left out is the
    "Generate Automation Stubs" button of the last tab: its handler posts
    an object and reads a property that the payloads and the reply above do
    not have. *)

(** The options of the "Issue Type" select. *)
Definition issue_types : list jsstring :=
  js <$> ["Test"; "Test Case"; "Test Execution"; "Story"; "Task"]%string.

Inductive Event :=
| ChooseFile (files : list File)
| EditReqFeedback (v : jsstring)
| EditAppLink (v : jsstring)
| EditPrototypeLink (v : jsstring)
| EditDiagramLinks (v : jsstring)
| EditImageLinks (v : jsstring)
| EditTemplateName (v : jsstring)
| EditTemplateFormat (v : jsstring)
| EditFeedback (v : jsstring)
| EditJiraProject (v : jsstring)
| SelectIssueType (i : nat)
| PressParse
| PressRefineRequirements
| PressGenerate
| PressRefineTestCases
| PressExport (i : nat)
| PressExportJira
| PressNext
| PressBack
| PressTab (i : nat)
| PressRow (i : nat).

(** An input's [onChange], when the input is rendered. *)
Definition input (shown : bool) (f : State -> State) : prog unit :=
  if shown then set f else Ret tt.

(** The handler an event reaches in the view rendered from [st]; an event
    on a control the view does not show reaches none. *)
Definition react (env : field jsstring) (st : State) (ev : Event)
    : prog unit :=
  let tab := activeTab st in
  match ev with
  | ChooseFile files => input (tab =? 0)%Z (onFileChange files)
  | EditReqFeedback v =>
      input ((tab =? 0)%Z && (0 <? length (requirements st))%nat)
            (setReqFeedback v)
  | EditAppLink v => input (tab =? 1)%Z (setAppLink v)
  | EditPrototypeLink v => input (tab =? 1)%Z (setPrototypeLink v)
  | EditDiagramLinks v => input (tab =? 1)%Z (setDiagramLinks v)
  | EditImageLinks v => input (tab =? 1)%Z (setImageLinks v)
  | EditTemplateName v => input (tab =? 2)%Z (setTemplateName v)
  | EditTemplateFormat v => input (tab =? 2)%Z (setTemplateFormat v)
  | EditFeedback v =>
      input ((tab =? 3)%Z && (0 <? length (testCases st))%nat)
            (setFeedback v)
  | EditJiraProject v => input (tab =? 4)%Z (setJiraProject v)
  | SelectIssueType i =>
      match issue_types !! i with
      | Some v => input (tab =? 4)%Z (setJiraIssueType v)
      | None => Ret tt
      end
  | PressParse => click (parseButton env st)
  | PressRefineRequirements => click (reqFeedbackButton env st)
  | PressGenerate => click (generateButton env st)
  | PressRefineTestCases => click (feedbackButton env st)
  | PressExport i => click (exportButton env i st)
  | PressExportJira => click (jiraButton env st)
  | PressNext => click (nextButton st)
  | PressBack => click (backButton st)
  | PressTab i => click (tabButton i)
  | PressRow i => click (tableRow i st)
  end.

(** A session: the state now, and what has left the page so far: the
    requests sent, the files downloaded, and the errors no handler caught
    (each the rejection of the promise an [async] handler returned). *)
Record Session := {
  now : State;
  sent : list Request;
  saved : list (jsstring * Blob);
  uncaught : list JsError
}.

Definition opening : Session :=
  {| now := initial; sent := []; saved := []; uncaught := [] |}.

(** One event, handled to completion against the network [net]. *)
Definition handle (env : field jsstring) (s : Session)
    (turn : Event * (Request -> FetchResult)) : Session :=
  let o := run turn.2 (react env (now s) turn.1) (now s) in
  {| now := final o;
     sent := sent s ++ requests o;
     saved := saved s ++ downloads o;
     uncaught := uncaught s ++ match result o with
                               | inl e => [e]
                               | inr _ => []
                               end |}.

(** A script of events, each with the network of its moment. *)
Definition play (env : field jsstring)
    (script : list (Event * (Request -> FetchResult))) : Session :=
  foldl (handle env) opening script.

(** * Vocabulary of the properties

    Predicates the statements below use, and sample inputs. *)

(** The active tab is one of the six tabs. *)
Definition tab_in_range (st : State) : Prop :=
  (0 <= activeTab st <= 5)%Z.

(** A property the object lacks, or that is [null]. *)
Definition absent {A} (x : field A) : Prop :=
  x = Undefined \/ x = Null.

(** A test case the backend sent with nothing but an id and a title. *)
Definition bare_test_case : TestCase := {|
  tc_id := js "TC-001";
  title := Val (js "Sign in");
  description := Undefined;
  priority := Undefined;
  type := Undefined;
  tc_status := Null;
  preconditions := Undefined;
  steps := Undefined;
  expected_result := Undefined;
  test_data := Undefined;
  estimated_time := Undefined;
  automation_status := Undefined;
  component := Undefined;
  tags := Undefined
|}.

(** The outcome of a handler that did nothing. *)
Definition untouched (st : State) : Outcome unit :=
  {| final := st; requests := []; downloads := []; result := inr tt |}.

(** Empty or whitespace-only text. *)
Definition blank (s : jsstring) : bool := forallb is_white_space s.

(** A requirement and client states with one artifact of each kind under
    review. *)
Definition sample_requirement : Requirement :=
  {| req_id := js "REQ-1";
     req_text := js "The system shall allow users to search by keyword." |}.

(** The Upload panel after a parse, with feedback text [fb] typed in. *)
Definition upload_review (fb : jsstring) : State :=
  setReqFeedback fb (setRequirements [sample_requirement] initial).

(** The Generate panel after a generation gave [tcs], with feedback text
    [fb] typed in. *)
Definition generate_review (tcs : list TestCase) (fb : jsstring) : State :=
  setFeedback fb
    (setTestCases tcs
       (setActiveTab (fun _ => 3%Z)
          (setRequirements [sample_requirement] initial))).

(** The request a requirements refine sends: the selected file when there is
    one, the feedback, and the whole requirements list serialised. *)
Definition refine_requirements_request (env : field jsstring) (st : State)
    : Request :=
  {| url := API_BASE env ++ js "/requirements/parse";
     method := js "POST";
     headers := [];
     body := FormData
       (match file st with
        | Some f => [(js "file", FormFile f)]
        | None => []
        end
        ++ [(js "feedback", FormText (reqFeedback st));
            (js "existing_requirements", FormStringified (requirements st))])
  |}.

(** The request a test-case refine sends: the whole requirements list, the
    template, the context (which repeats the requirements list) and the
    feedback.  It has no place for the test cases under review. *)
Definition refine_test_cases_request (env : field jsstring) (st : State)
    : Request :=
  {| url := API_BASE env ++ js "/testcases/generate";
     method := js "POST";
     headers := [(js "Content-Type", js "application/json")];
     body := JSON_stringify
       (GeneratePayload
          (requirements st)
          {| name := templateName st; format := templateFormat st;
             fields := template_fields |}
          {| ctx_requirements := requirements st;
             app_link := or_null (appLink st);
             prototype_link := or_null (prototypeLink st);
             diagram_links := split_links (diagramLinks st);
             image_links := split_links (imageLinks st);
             notes := js "Generated via UI" |}
          (Some (feedback st)))
  |}.

(** The claim that a test-case refine carries the current artifact: the
    test cases under review can be read back from the requests an accepted
    click on the refine button issues. *)
Definition refine_carries_test_cases (env : field jsstring) : Prop :=
  exists recover : list Request -> list TestCase,
    forall (net : Request -> FetchResult) (st : State) (b : Button),
      feedbackButton env st = Some b -> disabled b = false ->
      recover (requests (run net (click (Some b)) st)) = testCases st.

(** Case analysis on what the network answers to the request in the goal:
    a rejection, or a response that is OK or not and whose body parses as
    JSON or not. *)
Ltac answer net :=
  match goal with
  | |- context [net ?r] =>
      destruct (net r) as [?e|[[] ?text [?e|?data] ?blob]]
  end.

(** The body of an error response, a JSON object such as
    [{"detail": "..."}] with none of the properties the client reads. *)
Definition error_body : JsonData :=
  {| data_raw_text := Undefined; data_requirements := Undefined;
     data_test_cases := Undefined; data_status := Undefined;
     data_message := Undefined |}.

(** A failed call as the client sees it: the fetch rejects, or the response
    is not OK. *)
Definition failed (x : FetchResult) : Prop :=
  match x with
  | Rejected _ => True
  | Resolved res => ok res = false
  end.

(** The supported export formats, each with the extension its file is saved
    under. *)
Definition supported_formats : list (jsstring * jsstring) :=
  [(js "csv", js "csv"); (js "excel", js "xlsx"); (js "json", js "json")].

(** The request [exportToFormat] sends for [format]. *)
Definition export_request (env : field jsstring) (format : jsstring)
    (st : State) : Request :=
  {| url := API_BASE env ++ js "/export/" ++ format;
     method := js "POST";
     headers := [(js "Content-Type", js "application/json")];
     body := JSON_stringify (ExportPayload (testCases st)) |}.

(** An OK response carrying the bytes of a file. *)
Definition file_response (bytes : Blob) : Response :=
  {| ok := true; res_text := [];
     res_json := inl {| message := js "Unexpected token" |};
     res_blob := bytes |}.

(** *** Validation Gate *)

(** What holds of every gate reachable from [start]: one [produce] call
    once the artifact exists, one [revise] call per completed cycle, a
    critique per cycle and one more while a critique's verdict is being
    acted on, and never more cycles than the cap. *)
Definition gate_inv {Input Artifact : Type} (cap : nat)
    (g : @ValidationGate.Gate Input Artifact) : Prop :=
  let '(c, np, nc, nr) :=
    (ValidationGate.cycles g, ValidationGate.produce_calls g,
     ValidationGate.critique_calls g, ValidationGate.revise_calls g) in
  match ValidationGate.phase g with
  | ValidationGate.Requested _ =>
      c = 0 /\ np = 0 /\ nc = 0 /\ nr = 0
  | ValidationGate.Generated _ =>
      c = 0 /\ np = 1 /\ nc = 0 /\ nr = 0
  | ValidationGate.Validating _ =>
      c <= cap /\ np = 1 /\ nc = c /\ nr = c
  | ValidationGate.NeedsRevision _ _
  | ValidationGate.Regenerating _ _
  | ValidationGate.Approved _ =>
      c < cap /\ np = 1 /\ nc = S c /\ nr = c
  | ValidationGate.MaxIterationsExceeded _ =>
      c = cap /\ np = 1 /\ nc = cap /\ nr = cap
  | ValidationGate.ProviderError =>
      c < S cap /\ np = 1 /\ nc <= cap /\ nr <= cap
  end%nat.

(** An upper bound on the transitions left before a terminal state. *)
Definition distance {Input Artifact : Type} (cap : nat)
    (g : @ValidationGate.Gate Input Artifact) : nat :=
  match ValidationGate.phase g with
  | ValidationGate.Requested _ => 3 + 3 * cap
  | ValidationGate.Generated _ => 2 + 3 * cap
  | ValidationGate.Validating _ => 1 + 3 * (cap - ValidationGate.cycles g)
  | ValidationGate.NeedsRevision _ _ => 3 * (cap - ValidationGate.cycles g)
  | ValidationGate.Regenerating _ _ => 3 * (cap - ValidationGate.cycles g) - 1
  | ValidationGate.Approved _
  | ValidationGate.MaxIterationsExceeded _
  | ValidationGate.ProviderError => 0
  end%nat.

(** A provider over numbered drafts whose Validator never approves: draft
    [n] is revised into draft [n + 1]. *)
Definition strict_provider : @ValidationGate.Provider nat nat :=
  {| ValidationGate.produce := fun i => Some i;
     ValidationGate.critique := fun _ =>
       {| ValidationGate.approved := false;
          ValidationGate.deficiencies := [js "missing negative test case"] |};
     ValidationGate.revise := fun a _ => Some (S a) |}.

(** A provider whose Validator approves from draft [n] on. *)
Definition lenient_provider (n : nat) : @ValidationGate.Provider nat nat :=
  {| ValidationGate.produce := fun i => Some i;
     ValidationGate.critique := fun a =>
       {| ValidationGate.approved := (n <=? a)%nat;
          ValidationGate.deficiencies := [js "missing negative test case"] |};
     ValidationGate.revise := fun a _ => Some (S a) |}.

(** ** Vocabulary of the further properties *)

(** An OK response whose body is the JSON object [data]. *)
Definition ok_response (data : JsonData) : Response :=
  {| ok := true; res_text := []; res_json := inr data; res_blob := [] |}.

(** The endpoints of the backend the handlers post to. *)
Definition endpoint (env : field jsstring) (path : jsstring) (r : Request)
    : Prop :=
  url r = API_BASE env ++ path /\ method r = js "POST".

(** The message [parseRequirements] reports for a failed call: the error
    the fetch or [res.json()] rejected with, or for a non-OK response its
    body text, or a fixed text when the body is empty. *)
Definition parse_failure_message (x : FetchResult) : jsstring :=
  match x with
  | Rejected e => message e
  | Resolved res =>
      if ok res
      then match res_json res with
           | inl e => message e
           | inr _ => []
           end
      else if truthy (res_text res) then res_text res
           else js "Failed to parse requirements"
  end.

(** A call [parseRequirements] treats as failed: the fetch rejects, the
    response is not OK, or its body is not JSON. *)
Definition parse_fails (x : FetchResult) : bool :=
  match x with
  | Rejected _ => true
  | Resolved res =>
      negb (ok res) || match res_json res with inl _ => true | inr _ => false end
  end.

(** The body of a reply to /testcases/generate: [{"test_cases": tcs}]. *)
Definition test_cases_body (tcs : list TestCase) : JsonData :=
  {| data_raw_text := Undefined; data_requirements := Undefined;
     data_test_cases := Val tcs; data_status := Undefined;
     data_message := Undefined |}.

(** The body of a reply to /requirements/parse:
    [{"raw_text": raw, "requirements": reqs}]. *)
Definition requirements_body (raw : jsstring) (reqs : list Requirement)
    : JsonData :=
  {| data_raw_text := Val raw; data_requirements := Val reqs;
     data_test_cases := Undefined; data_status := Undefined;
     data_message := Undefined |}.

(** The request [generateTestCases] sends from [st] with [fb] as its
    feedback. *)
Definition generate_request (env : field jsstring) (st : State)
    (fb : option jsstring) : Request :=
  {| url := API_BASE env ++ js "/testcases/generate";
     method := js "POST";
     headers := [(js "Content-Type", js "application/json")];
     body := JSON_stringify
       (GeneratePayload
          (requirements st)
          {| name := templateName st; format := templateFormat st;
             fields := template_fields |}
          {| ctx_requirements := requirements st;
             app_link := or_null (appLink st);
             prototype_link := or_null (prototypeLink st);
             diagram_links := split_links (diagramLinks st);
             image_links := split_links (imageLinks st);
             notes := js "Generated via UI" |}
          fb)
  |}.

(** The request an initial parse of file [f] sends. *)
Definition parse_request (env : field jsstring) (f : File) : Request :=
  {| url := API_BASE env ++ js "/requirements/parse";
     method := js "POST";
     headers := [];
     body := FormData [(js "file", FormFile f)] |}.

(** The request [exportToJira] sends from [st]. *)
Definition jira_request (env : field jsstring) (st : State) : Request :=
  {| url := API_BASE env ++ js "/export/jira";
     method := js "POST";
     headers := [(js "Content-Type", js "application/json")];
     body := JSON_stringify
               (JiraPayload (jiraProject st) (jiraIssueType st)
                  (testCases st)) |}.

(** A list that does not start with an element satisfying [p]. *)
Definition not_led_by {A} (p : A -> bool) (l : list A) : Prop :=
  match l with
  | [] => True
  | x :: _ => p x = false
  end.

(** Text with no whitespace at either end. *)
Definition trimmed (s : jsstring) : Prop :=
  not_led_by is_white_space s /\ not_led_by is_white_space (reverse s).



(** A test case with five steps. *)
Definition long_test_case : TestCase := {|
  tc_id := js "TC-007";
  title := Val (js "Reset password");
  description := Undefined;
  priority := Val (js "High");
  type := Undefined;
  tc_status := Undefined;
  preconditions := Undefined;
  steps := Val ((fun n => {| step := Val n; action := Val (js "Do");
                             expected := Val (js "Done");
                             step_test_data := Undefined |})
                <$> [1; 2; 3; 4; 5]%Z);
  expected_result := Undefined;
  test_data := Undefined;
  estimated_time := Undefined;
  automation_status := Undefined;
  component := Undefined;
  tags := Undefined
|}.


(** What every request the page sends satisfies: a parse carries a file and
    nothing else; a refine of requirements carries non-blank feedback and a
    non-empty requirements list; a generation carries a non-empty
    requirements list and no feedback, a refine of test cases non-blank
    feedback, and in both the context repeats the requirements; an export
    carries at least one test case, and the JIRA export a project key. *)
Definition proper_request (r : Request) : Prop :=
  match body r with
  | FormData [(_, FormFile _)] => True
  | FormData [(_, FormText fb); (_, FormStringified reqs)]
  | FormData [(_, FormFile _); (_, FormText fb); (_, FormStringified reqs)] =>
      blank fb = false /\ reqs <> []
  | FormData _ => False
  | JSON_stringify (GeneratePayload reqs _ ctx fb) =>
      ctx_requirements ctx = reqs
      /\ match fb with
         | None => reqs <> []
         | Some text => blank text = false
         end
  | JSON_stringify (JiraPayload key _ tcs) => key <> [] /\ tcs <> []
  | JSON_stringify (ExportPayload tcs) => tcs <> []
  end.




(** A network that answers every request with [res], and one that is
    down. *)
Definition reply (res : Response) : Request -> FetchResult :=
  fun _ => Resolved res.

Definition offline : Request -> FetchResult :=
  fun _ => Rejected {| message := js "Failed to fetch" |}.

(** The whole workflow: choose a file, parse it, walk to the Generate tab,
    generate, walk to the Export tab, export as CSV; the backend answers
    the parse with [reqs], the generation with [tcs] and the export with
    the file [blob]. *)
Definition workflow (f : File) (raw : jsstring) (reqs : list Requirement)
    (tcs : list TestCase) (blob : Blob)
    : list (Event * (Request -> FetchResult)) :=
  [(ChooseFile [f], offline);
   (PressParse, reply (ok_response (requirements_body raw reqs)));
   (PressNext, offline); (PressNext, offline); (PressNext, offline);
   (PressGenerate, reply (ok_response (test_cases_body tcs)));
   (PressNext, offline);
   (PressExport 0, reply (file_response blob))].

(** The context of a generation when no link was entered. *)
Definition bare_context (reqs : list Requirement) : Context :=
  {| ctx_requirements := reqs; app_link := None; prototype_link := None;
     diagram_links := None; image_links := None;
     notes := js "Generated via UI" |}.

(** * Properties *)

(** ** Navigation *)

Lemma tab_in_range_initial : tab_in_range initial.
Proof. unfold tab_in_range; simpl; lia. Qed.

Lemma tab_id_in_range (i : nat) (tab : Tab) :
  tabs !! i = Some tab -> (0 <= tab_id tab <= 5)%Z.
Proof.
  do 6 (destruct i as [|i]; [intros [= <-]; simpl; lia|]).
  discriminate.
Qed.

Lemma navigate_in_range (st : State) (e : NavEvent) :
  tab_in_range st -> tab_in_range (navigate st e).
Proof.
  unfold tab_in_range. intros Hst.
  destruct e as [| |i]; simpl.
  - lia.
  - lia.
  - destruct (tabs !! i) as [tab|] eqn:Htab; [|exact Hst].
    simpl. eapply tab_id_in_range, Htab.
Qed.

Lemma navigation_in_range (es : list NavEvent) (st : State) :
  tab_in_range st -> tab_in_range (foldl navigate st es).
Proof.
  revert st. induction es as [|e es IH]; intros st Hst; simpl.
  - exact Hst.
  - apply IH, navigate_in_range, Hst.
Qed.

(** C8. Starting from the initial tab index 0, after any sequence of
    navigation clicks (Next, Back, or a tab of the tab bar) the active tab
    index is an integer between 0 and 5 inclusive; [goNext] on the last tab
    and [goPrev] on the first tab leave the state as it is. *)
Theorem activeTab_stays_in_range :
  (forall es : list NavEvent,
      (0 <= activeTab (foldl navigate initial es) <= 5)%Z)
  /\ (forall st : State, activeTab st = 5%Z -> goNext st = st)
  /\ (forall st : State, activeTab st = 0%Z -> goPrev st = st).
Proof.
  split; [|split].
  - intros es. apply (navigation_in_range es initial), tab_in_range_initial.
  - intros [] Htab; simpl in Htab; subst; reflexivity.
  - intros [] Htab; simpl in Htab; subst; reflexivity.
Qed.

Lemma activeTab_stays_in_range_witness :
  goNext (foldl navigate initial [ClickTab 5]) = foldl navigate initial [ClickTab 5]
  /\ goPrev (foldl navigate initial [ClickNext; ClickPrev])
     = foldl navigate initial [ClickNext; ClickPrev].
Proof.
  destruct activeTab_stays_in_range as (_ & Hnext & Hprev).
  split; [apply Hnext | apply Hprev]; reflexivity.
Defined.

(** ** Row expansion *)

Lemma is_expanded_insert (obj : gmap jsstring bool) (id : jsstring) (b : bool) :
  is_expanded (<[id := b]> obj) id = b.
Proof. unfold is_expanded. by rewrite lookup_insert_eq. Qed.

(** C9. For every row id and every expansion-state map, toggling the id
    twice restores the boolean expansion state of that id, and one toggle
    changes no entry of the map other than the one for that id. *)
Theorem toggleRowExpansion_involutive (id : jsstring) (st : State) :
  is_expanded (expandedRows (toggleRowExpansion id (toggleRowExpansion id st))) id
  = is_expanded (expandedRows st) id
  /\ (forall j : jsstring, j <> id ->
        expandedRows (toggleRowExpansion id st) !! j = expandedRows st !! j).
Proof.
  split.
  - simpl. rewrite !is_expanded_insert. apply negb_involutive.
  - intros j Hj. simpl. by rewrite lookup_insert_ne.
Qed.

Lemma toggleRowExpansion_involutive_witness :
  expandedRows (toggleRowExpansion (js "TC-001")
                  (toggleRowExpansion (js "TC-002") initial)) !! js "TC-002"
  = expandedRows (toggleRowExpansion (js "TC-002") initial) !! js "TC-002".
Proof.
  apply (toggleRowExpansion_involutive (js "TC-001")
           (toggleRowExpansion (js "TC-002") initial)).
  vm_compute. discriminate.
Defined.

(** ** Table view *)

Lemma or_else_absent (x : field jsstring) (d : jsstring) :
  absent x -> or_else x d = d.
Proof. by intros [-> | ->]. Qed.

(** C7. For every test case, a priority, type, status or automation_status
    that is absent is shown in the table view as Medium, Functional, Draft
    and Manual respectively. *)
Theorem table_row_defaults (tc : TestCase) :
  (absent (priority tc) -> cell_priority (table_row tc) = js "Medium")
  /\ (absent (type tc) -> cell_type (table_row tc) = js "Functional")
  /\ (absent (tc_status tc) -> cell_status (table_row tc) = js "Draft")
  /\ (absent (automation_status tc) ->
        cell_automation (table_row tc) = js "Manual").
Proof.
  repeat split; intros H; simpl; by rewrite or_else_absent.
Qed.

Lemma table_row_defaults_witness :
  table_row bare_test_case
  = {| cell_priority := js "Medium"; cell_type := js "Functional";
       cell_status := js "Draft"; cell_automation := js "Manual" |}.
Proof.
  destruct (table_row_defaults bare_test_case) as (Hp & Ht & Hs & Ha).
  assert (Hp' := Hp (or_introl eq_refl)).
  assert (Ht' := Ht (or_introl eq_refl)).
  assert (Hs' := Hs (or_intror eq_refl)).
  assert (Ha' := Ha (or_introl eq_refl)).
  destruct (table_row bare_test_case); simpl in *.
  by rewrite Hp', Ht', Hs', Ha'.
Defined.

(** ** Parsing without a file *)

(** C10. An initial parse request ([withFeedback] false) while no file is
    selected is a no-op: no request is issued and the whole client state is
    left as it was. *)
Theorem parseRequirements_without_file (env : field jsstring)
    (net : Request -> FetchResult) (st : State) :
  file st = None ->
  run net (parseRequirements env false st) st = untouched st.
Proof.
  intros Hfile. unfold parseRequirements. rewrite Hfile. reflexivity.
Qed.

Lemma parseRequirements_without_file_witness :
  run (fun _ => Rejected {| message := js "Failed to fetch" |})
      (parseRequirements Undefined false initial) initial
  = untouched initial.
Proof.
  apply parseRequirements_without_file. reflexivity.
Defined.

(** ** Blank feedback *)

Lemma drop_while_all {A} (p : A -> bool) (l : list A) :
  forallb p l = true -> drop_while p l = [].
Proof.
  induction l as [|x l IH]; simpl; [done|].
  destruct (p x); simpl; [exact IH | discriminate].
Qed.

Lemma trim_blank (s : jsstring) : blank s = true -> trim s = [].
Proof.
  intros Hs. unfold trim. by rewrite (drop_while_all _ _ Hs).
Qed.

Lemma trim_truthy (s : jsstring) : truthy (trim s) = true -> truthy s = true.
Proof. by destruct s. Qed.

Lemma drop_while_nil {A} (p : A -> bool) (l : list A) :
  drop_while p l = [] -> forallb p l = true.
Proof.
  induction l as [|x l IH]; simpl; [done|].
  destruct (p x); simpl; [exact IH | discriminate].
Qed.

Lemma drop_while_idemp {A} (p : A -> bool) (l : list A) :
  drop_while p (drop_while p l) = drop_while p l.
Proof.
  induction l as [|x l IH]; simpl; [done|].
  destruct (p x) eqn:Hx; [exact IH|].
  simpl. by rewrite Hx.
Qed.

Lemma forallb_reverse {A} (p : A -> bool) (l : list A) :
  forallb p (reverse l) = forallb p l.
Proof.
  induction l as [|x l IH]; simpl; [done|].
  rewrite reverse_cons, forallb_app, IH. simpl.
  rewrite andb_true_r. apply andb_comm.
Qed.

(** [trim] leaves nothing exactly of the blank texts, so a refine button is
    disabled by its feedback exactly when the feedback is blank. *)
Lemma trim_empty_iff_blank (s : jsstring) : trim s = [] <-> blank s = true.
Proof.
  split; [|apply trim_blank].
  unfold trim, blank. intros Htrim.
  apply (f_equal reverse) in Htrim. rewrite reverse_involutive in Htrim.
  apply drop_while_nil in Htrim. rewrite forallb_reverse in Htrim.
  apply drop_while_nil. rewrite <- drop_while_idemp.
  by apply drop_while_all.
Qed.

(** C2. A click on either "Implement Changes" button while the feedback
    text is empty or whitespace-only is rejected: no request is issued, and
    the state, with its requirements and test cases, stays as it was. *)
Theorem blank_feedback_is_rejected (env : field jsstring)
    (net : Request -> FetchResult) (st : State) :
  (blank (reqFeedback st) = true ->
     run net (click (reqFeedbackButton env st)) st = untouched st)
  /\ (blank (feedback st) = true ->
        run net (click (feedbackButton env st)) st = untouched st).
Proof.
  split; intros Hblank.
  - unfold reqFeedbackButton.
    destruct (_ && _); [|reflexivity].
    simpl. by rewrite (trim_blank _ Hblank).
  - unfold feedbackButton.
    destruct (_ && _); [|reflexivity].
    simpl. by rewrite (trim_blank _ Hblank).
Qed.

Lemma blank_feedback_is_rejected_witness :
  run (fun _ => Rejected {| message := js "Failed to fetch" |})
      (click (reqFeedbackButton Undefined (upload_review [32; 9; 12288])))
      (upload_review [32; 9; 12288])
  = untouched (upload_review [32; 9; 12288])
  /\ run (fun _ => Rejected {| message := js "Failed to fetch" |})
         (click (feedbackButton Undefined
                   (generate_review [bare_test_case] [])))
         (generate_review [bare_test_case] [])
     = untouched (generate_review [bare_test_case] []).
Proof.
  split.
  - apply blank_feedback_is_rejected. reflexivity.
  - apply blank_feedback_is_rejected. reflexivity.
Defined.

(** The rejection is the button's: called with blank feedback the handlers
    themselves do send a request, the refine of test cases one without
    feedback. *)
Remark generateTestCases_itself_unguarded :
  let st := generate_review [bare_test_case] [] in
  exists payload_requirements template context,
    requests (run (fun _ => Rejected {| message := js "Failed to fetch" |})
                (generateTestCases Undefined true st) st)
    = [{| url := js "http://localhost:8000/testcases/generate";
          method := js "POST";
          headers := [(js "Content-Type", js "application/json")];
          body := JSON_stringify
                    (GeneratePayload payload_requirements template context
                       None) |}].
Proof. by do 3 eexists. Qed.

(** ** What a refine request carries *)

Lemma parseRequirements_refine_request (env : field jsstring)
    (net : Request -> FetchResult) (st : State) :
  truthy (reqFeedback st) = true ->
  requests (run net (parseRequirements env true st) st)
  = [refine_requirements_request env st].
Proof.
  intros Hfb. unfold parseRequirements, refine_requirements_request.
  rewrite Hfb, andb_false_r. simpl.
  answer net; reflexivity.
Qed.

Lemma generateTestCases_refine_request (env : field jsstring)
    (net : Request -> FetchResult) (st : State) :
  truthy (feedback st) = true ->
  requests (run net (generateTestCases env true st) st)
  = [refine_test_cases_request env st].
Proof.
  intros Hfb. unfold generateTestCases, refine_test_cases_request.
  rewrite Hfb. simpl.
  answer net; reflexivity.
Qed.

(** C4, as the code has it. Every accepted click on a refine button sends
    one request. A requirements refine carries the whole current
    requirements list, serialised next to the feedback. A test-case refine
    carries the whole requirements list, the template, the context and the
    feedback, and nothing of the test cases under review: the request is the
    same whatever they are. *)
Theorem refine_request_contents (env : field jsstring)
    (net : Request -> FetchResult) (st : State) (b : Button) :
  (reqFeedbackButton env st = Some b -> disabled b = false ->
     requests (run net (click (Some b)) st)
     = [refine_requirements_request env st])
  /\ (feedbackButton env st = Some b -> disabled b = false ->
        requests (run net (click (Some b)) st)
        = [refine_test_cases_request env st])
  /\ (forall tcs : list TestCase,
        refine_test_cases_request env (setTestCases tcs st)
        = refine_test_cases_request env st).
Proof.
  split; [|split].
  - unfold reqFeedbackButton.
    destruct (_ && _); [|discriminate].
    intros [= <-]; simpl. intros Hen.
    apply orb_false_elim in Hen as [Hfb Hbusy]. apply negb_false_iff in Hfb.
    rewrite Hfb, Hbusy; simpl.
    apply parseRequirements_refine_request, trim_truthy, Hfb.
  - unfold feedbackButton.
    destruct (_ && _); [|discriminate].
    intros [= <-]; simpl. intros Hen.
    apply orb_false_elim in Hen as [Hfb Hbusy]. apply negb_false_iff in Hfb.
    rewrite Hfb, Hbusy; simpl.
    apply generateTestCases_refine_request, trim_truthy, Hfb.
  - reflexivity.
Qed.

Lemma refine_request_contents_witness :
  requests
    (run (fun _ => Rejected {| message := js "Failed to fetch" |})
       (click (reqFeedbackButton Undefined
                 (upload_review (js "Split REQ-1 in two"))))
       (upload_review (js "Split REQ-1 in two")))
  = [refine_requirements_request Undefined
       (upload_review (js "Split REQ-1 in two"))]
  /\ requests
       (run (fun _ => Rejected {| message := js "Failed to fetch" |})
          (click (feedbackButton Undefined
                    (generate_review [bare_test_case] (js "Add negative cases"))))
          (generate_review [bare_test_case] (js "Add negative cases")))
     = [refine_test_cases_request Undefined
          (generate_review [bare_test_case] (js "Add negative cases"))].
Proof.
  split.
  - apply (refine_request_contents Undefined _
             (upload_review (js "Split REQ-1 in two"))
             {| disabled := false;
                onClick := parseRequirements Undefined true
                             (upload_review (js "Split REQ-1 in two")) |});
      reflexivity.
  - apply (refine_request_contents Undefined _
             (generate_review [bare_test_case] (js "Add negative cases"))
             {| disabled := false;
                onClick := generateTestCases Undefined true
                             (generate_review [bare_test_case]
                                (js "Add negative cases")) |});
      reflexivity.
Defined.

(** C4, as stated, fails for test cases: two reviews that differ in their
    test cases send the same refine request, so the request does not carry
    the test-case artifact. *)
Lemma refine_omits_test_cases : ~ refine_carries_test_cases Undefined.
Proof.
  intros [recover Hrec].
  pose (net := fun _ : Request => Rejected {| message := js "Failed to fetch" |}).
  pose (fb := js "Add negative cases").
  pose proof (Hrec net (generate_review [bare_test_case] fb)
                {| disabled := false;
                   onClick := generateTestCases Undefined true
                                (generate_review [bare_test_case] fb) |}
                eq_refl eq_refl) as H1.
  pose proof (Hrec net (generate_review [bare_test_case; bare_test_case] fb)
                {| disabled := false;
                   onClick := generateTestCases Undefined true
                                (generate_review
                                   [bare_test_case; bare_test_case] fb) |}
                eq_refl eq_refl) as H2.
  vm_compute in H1, H2. rewrite H1 in H2. discriminate H2.
Qed.

(** ** Failed calls *)

(** [parseRequirements] handles a failed call: afterwards the
    requirements and the test cases are those of before, the status line
    reports the failure and nothing is thrown. *)
Lemma parseRequirements_failure (env : field jsstring)
    (net : Request -> FetchResult) (withFeedback : bool) (st : State) :
  (forall r, failed (net r)) ->
  let o := run net (parseRequirements env withFeedback st) st in
  requirements (final o) = requirements st
  /\ testCases (final o) = testCases st
  /\ rawText (final o) = rawText st
  /\ (o = untouched st
      \/ exists msg, status (final o) = js "Parse failed: " ++ msg).
Proof.
  intros Hnet. unfold parseRequirements.
  destruct (_ && _); [by repeat split; left|].
  simpl.
  match goal with |- context [net ?r] => specialize (Hnet r) end.
  answer net; simpl in Hnet; try discriminate Hnet;
    repeat split; right; eexists; reflexivity.
Qed.

(** [generateTestCases] lets a rejected fetch escape: the test cases stay,
    the promise rejects and the status line still says the call is under
    way. *)
Lemma generateTestCases_rejected (env : field jsstring)
    (withFeedback : bool) (st : State) (e : JsError) :
  let o := run (fun _ => Rejected e) (generateTestCases env withFeedback st) st in
  testCases (final o) = testCases st
  /\ requirements (final o) = requirements st
  /\ result o = inl e.
Proof. by destruct withFeedback. Qed.

(** C1, where the code departs from it. When the backend answers a Generate
    or Refine of test cases with a non-OK response whose body is a JSON
    object without [test_cases], [generateTestCases] throws nothing: it
    replaces the test cases by the empty list, reports success in the
    status line and, on a refine, clears the feedback. *)
Theorem generateTestCases_non_ok_response (env : field jsstring)
    (withFeedback : bool) (st : State) (text : jsstring) (blob : Blob) :
  let res := {| ok := false; res_text := text;
                res_json := inr error_body; res_blob := blob |} in
  let o := run (fun _ => Resolved res) (generateTestCases env withFeedback st) st in
  testCases (final o) = []
  /\ status (final o) = (if withFeedback then js "Test cases refined."
                         else js "Generated.")
  /\ feedback (final o) = (if withFeedback then [] else feedback st)
  /\ result o = inr tt.
Proof. by destruct withFeedback. Qed.

(** The same at one input: a review of one test case is emptied by a
    500 response. *)
Example generateTestCases_non_ok_response_example :
  let st := generate_review [bare_test_case] [] in
  let res := {| ok := false; res_text := js "{'detail':'Internal error'}";
                res_json := inr error_body; res_blob := [] |} in
  let o := run (fun _ => Resolved res) (generateTestCases Undefined false st) st in
  testCases st = [bare_test_case]
  /\ testCases (final o) = []
  /\ status (final o) = js "Generated."
  /\ result o = inr tt.
Proof. by vm_compute. Qed.

(** ** Export to JIRA *)

(** When the backend answers with a JSON object, its [status] and [message]
    reach the status line and nothing is thrown. *)
Lemma exportToJira_surfaces_reply (env : field jsstring) (st : State)
    (okay : bool) (text : jsstring) (blob : Blob) (data : JsonData) :
  let res := {| ok := okay; res_text := text;
                res_json := inr data; res_blob := blob |} in
  let o := run (fun _ => Resolved res) (exportToJira env st) st in
  status (final o)
  = to_template (data_status data) ++ js ": " ++ to_template (data_message data)
  /\ isExporting (final o) = false
  /\ result o = inr tt.
Proof. done. Qed.

(** C6, where the code departs from it. When the fetch of [exportToJira]
    rejects, the handler has no [catch]: the error leaves the handler as a
    rejected promise, no [{status, message}] is shown and the status line
    keeps saying the export is under way. *)
Theorem exportToJira_rejected_fetch (env : field jsstring) (st : State)
    (e : JsError) :
  let o := run (fun _ => Rejected e) (exportToJira env st) st in
  result o = inl e
  /\ status (final o) = js "Exporting to JIRA..."
  /\ requests o
     = [{| url := API_BASE env ++ js "/export/jira";
           method := js "POST";
           headers := [(js "Content-Type", js "application/json")];
           body := JSON_stringify
                     (JiraPayload (jiraProject st) (jiraIssueType st)
                        (testCases st)) |}].
Proof. done. Qed.

(** The sibling [exportToFormat] catches the same rejection and reports it
    in the status line. *)
Lemma exportToFormat_rejected_fetch (env : field jsstring) (st : State)
    (format : jsstring) (e : JsError) :
  let o := run (fun _ => Rejected e) (exportToFormat env format st) st in
  result o = inr tt
  /\ status (final o) = js "Export failed: " ++ message e.
Proof. done. Qed.

(** ** Export to a file *)

Lemma exportToFormat_request (env : field jsstring)
    (net : Request -> FetchResult) (format : jsstring) (st : State) :
  requests (run net (exportToFormat env format st) st)
  = [export_request env format st].
Proof.
  unfold exportToFormat, export_request. simpl.
  answer net; reflexivity.
Qed.

Lemma download_name_supported (format ext : jsstring) :
  (format, ext) ∈ supported_formats ->
  download_name format = js "test_cases." ++ ext.
Proof.
  unfold supported_formats. rewrite !elem_of_cons, elem_of_nil.
  intros [[= -> ->]|[[= -> ->]|[[= -> ->]|[]]]]; by vm_compute.
Qed.

(** C5. For each supported format (csv, excel, json) the export issues one
    POST to /export/{format} whose body is [{test_cases}], and when the
    response is OK its blob is offered as a download named
    test_cases.{ext}, with ext csv, xlsx and json respectively. *)
Theorem exportToFormat_downloads (env : field jsstring)
    (net : Request -> FetchResult) (st : State)
    (format ext : jsstring) (res : Response) :
  (format, ext) ∈ supported_formats ->
  net (export_request env format st) = Resolved res ->
  ok res = true ->
  let o := run net (exportToFormat env format st) st in
  requests o = [export_request env format st]
  /\ method (export_request env format st) = js "POST"
  /\ url (export_request env format st) = API_BASE env ++ js "/export/" ++ format
  /\ body (export_request env format st)
     = JSON_stringify (ExportPayload (testCases st))
  /\ downloads o = [(js "test_cases." ++ ext, res_blob res)]
  /\ result o = inr tt.
Proof.
  intros Hfmt Hnet Hok o.
  split; [apply exportToFormat_request|].
  do 3 (split; [reflexivity|]).
  subst o. unfold exportToFormat, export_request in *. simpl in *.
  rewrite Hnet. simpl. rewrite Hok. simpl.
  by rewrite (download_name_supported _ _ Hfmt).
Qed.

Lemma exportToFormat_downloads_witness :
  downloads (run (fun _ => Resolved (file_response [80; 75; 3; 4]))
               (exportToFormat Undefined (js "excel")
                  (generate_review [bare_test_case] []))
               (generate_review [bare_test_case] []))
  = [(js "test_cases.xlsx", [80; 75; 3; 4])].
Proof.
  apply (exportToFormat_downloads Undefined
           (fun _ => Resolved (file_response [80; 75; 3; 4]))
           (generate_review [bare_test_case] [])
           (js "excel") (js "xlsx") (file_response [80; 75; 3; 4])).
  - unfold supported_formats. rewrite !elem_of_cons. right; left; reflexivity.
  - reflexivity.
  - reflexivity.
Defined.

(** ** The Validation Gate *)

Section GateProperties.

Import ValidationGate.

Context {Input Artifact : Type}.
Variable P : @Provider Input Artifact.
Variable cap : nat.

Local Abbreviation Gate := (@Gate Input Artifact).

Local Open Scope nat_scope.

Lemma gate_inv_start (i : Input) :
  gate_inv cap (start (Artifact := Artifact) i).
Proof. by cbv. Qed.

Lemma gate_inv_step (g : Gate) : gate_inv cap g -> gate_inv cap (step P cap g).
Proof.
  unfold gate_inv, step. destruct g as [ph c np nc nr]; simpl.
  destruct ph as [i|a|a|a ds|a ds|a|a|]; simpl; try done.
  - destruct (produce P i); simpl; lia.
  - lia.
  - destruct (Nat.leb_spec cap c); simpl; [lia|].
    destruct (approved (critique P a)); simpl; lia.
  - destruct (revise P a ds); simpl; lia.
Qed.

Lemma gate_inv_steps (n : nat) (g : Gate) :
  gate_inv cap g -> gate_inv cap (steps P cap n g).
Proof.
  revert g. induction n as [|n IH]; intros g Hg; simpl; [done|].
  apply IH, gate_inv_step, Hg.
Qed.

Lemma step_terminal (g : Gate) :
  is_terminal (phase g) = true -> step P cap g = g.
Proof. unfold step. by destruct (phase g). Qed.

Lemma distance_zero (g : Gate) :
  gate_inv cap g -> distance cap g = 0 -> is_terminal (phase g) = true.
Proof.
  unfold gate_inv, distance.
  destruct (phase g); simpl; try done; lia.
Qed.

Lemma distance_step (g : Gate) :
  gate_inv cap g -> distance cap (step P cap g) <= distance cap g - 1.
Proof.
  unfold gate_inv, distance, step. destruct g as [ph c np nc nr]; simpl.
  destruct ph as [i|a|a|a ds|a ds|a|a|]; simpl; try lia.
  - destruct (produce P i); simpl; lia.
  - destruct (Nat.leb_spec cap c); simpl; [lia|].
    destruct (approved (critique P a)); simpl; lia.
  - destruct (revise P a ds); simpl; lia.
Qed.

Lemma steps_terminate (n : nat) (g : Gate) :
  gate_inv cap g -> distance cap g <= n ->
  is_terminal (phase (steps P cap n g)) = true.
Proof.
  revert g. induction n as [|n IH]; intros g Hinv Hd; simpl.
  - apply distance_zero; [done|lia].
  - apply IH; [by apply gate_inv_step|].
    pose proof (distance_step g Hinv). lia.
Qed.

Lemma steps_add (n m : nat) (g : Gate) :
  steps P cap (n + m) g = steps P cap m (steps P cap n g).
Proof. revert g. induction n as [|n IH]; intros g; simpl; [done|apply IH]. Qed.

(** With a Validator that never approves and a Refiner that never fails,
    a gate that validates the artifact of cycle [k] gives up with the
    artifact of cycle [cap] after the remaining [cap - k] cycles. *)
Lemma validating_always_deficient (i : Input) (d k : nat) (a : Artifact) :
  (forall a, approved (critique P a) = false) ->
  (forall a ds, is_Some (revise P a ds)) ->
  d + k = cap ->
  revision P i k = Some a ->
  exists a',
    revision P i cap = Some a'
    /\ steps P cap (1 + 3 * d)
         {| phase := Validating a; cycles := k; produce_calls := 1;
            critique_calls := k; revise_calls := k |}
       = {| phase := MaxIterationsExceeded a'; cycles := cap;
            produce_calls := 1; critique_calls := cap; revise_calls := cap |}.
Proof.
  intros Hnever Hrev. revert k a.
  induction d as [|d IH]; intros k a Hcap Hk.
  - simpl in Hcap; subst k. exists a. split; [done|].
    simpl. unfold step; simpl. by rewrite Nat.leb_refl.
  - replace (1 + 3 * S d) with (3 + (1 + 3 * d)) by lia.
    rewrite steps_add.
    destruct (Hrev a (deficiencies (critique P a))) as [a1 Ha1].
    destruct (IH (S k) a1) as (a' & Hcap' & Hsteps); [lia| |].
    { simpl. by rewrite Hk. }
    exists a'. split; [done|].
    rewrite <- Hsteps. f_equal.
    simpl. unfold step at 3; simpl.
    destruct (Nat.leb_spec cap k); [lia|].
    rewrite Hnever. unfold step at 2; simpl.
    unfold step; simpl. by rewrite Ha1.
Qed.

(** C3. The gate always ends in a terminal state having made at most
    [iteration_cap] regeneration cycles ([revise] calls), at most
    [1 + 2 × iteration_cap] provider calls in all. With a Validator that
    always reports deficiencies (and a provider that does not fail) it ends
    after exactly [iteration_cap] cycles tagged [MaxIterationsExceeded],
    holding the artifact of the last cycle. *)
Theorem validation_gate_bounded (i : Input) :
  (is_terminal (phase (validation_gate P cap i)) = true
   /\ revise_calls (validation_gate P cap i) <= cap
   /\ cycles (validation_gate P cap i) <= cap
   /\ produce_calls (validation_gate P cap i)
      + critique_calls (validation_gate P cap i)
      + revise_calls (validation_gate P cap i) <= 1 + 2 * cap)
  /\ ((forall a, approved (critique P a) = false) ->
      (forall a ds, is_Some (revise P a ds)) ->
      is_Some (produce P i) ->
      exists a,
        revision P i cap = Some a
        /\ validation_gate P cap i
           = {| phase := MaxIterationsExceeded a; cycles := cap;
                produce_calls := 1; critique_calls := cap;
                revise_calls := cap |}).
Proof.
  split.
  - assert (Hinv : gate_inv cap (validation_gate P cap i))
      by apply gate_inv_steps, gate_inv_start.
    split.
    { apply steps_terminate; [apply gate_inv_start|done]. }
    revert Hinv. unfold gate_inv.
    destruct (phase (validation_gate P cap i)); lia.
  - intros Hnever Hrev [a0 Ha0].
    unfold validation_gate.
    replace (3 + 3 * cap) with (2 + (1 + 3 * cap)) by lia.
    rewrite steps_add.
    destruct (validating_always_deficient i cap 0 a0) as (a & Ha & Hsteps);
      [done|done|lia|done|].
    exists a. split; [done|].
    rewrite <- Hsteps. f_equal.
    simpl. unfold step at 2; simpl. by rewrite Ha0.
Qed.

End GateProperties.

Lemma validation_gate_bounded_witness :
  ValidationGate.validation_gate strict_provider 3 0%nat
  = {| ValidationGate.phase := ValidationGate.MaxIterationsExceeded 3%nat;
       ValidationGate.cycles := 3;
       ValidationGate.produce_calls := 1;
       ValidationGate.critique_calls := 3;
       ValidationGate.revise_calls := 3 |}.
Proof.
  destruct (validation_gate_bounded strict_provider 3 0%nat) as [_ Hstrict].
  destruct Hstrict as (a & Ha & Hgate).
  - reflexivity.
  - intros a ds. exists (S a). reflexivity.
  - exists 0%nat. reflexivity.
  - rewrite Hgate. simpl in Ha. by injection Ha as <-.
Defined.

(** The other scenarios of the specification's §8 on the model: a Validator
    that approves at once costs one [produce] and no [revise]; one that
    rejects once costs one [produce] and one [revise]. *)
Example validation_gate_approves_at_once :
  ValidationGate.validation_gate (lenient_provider 0) 3 0%nat
  = {| ValidationGate.phase := ValidationGate.Approved 0%nat;
       ValidationGate.cycles := 0;
       ValidationGate.produce_calls := 1;
       ValidationGate.critique_calls := 1;
       ValidationGate.revise_calls := 0 |}.
Proof. reflexivity. Qed.

Example validation_gate_rejects_once :
  ValidationGate.validation_gate (lenient_provider 1) 3 0%nat
  = {| ValidationGate.phase := ValidationGate.Approved 1%nat;
       ValidationGate.cycles := 1;
       ValidationGate.produce_calls := 1;
       ValidationGate.critique_calls := 2;
       ValidationGate.revise_calls := 1 |}.
Proof. reflexivity. Qed.

(** * More properties of the client *)

(** ** Row expansion, continued *)

Lemma is_expanded_insert_ne (obj : gmap jsstring bool) (i j : jsstring)
    (b : bool) :
  i <> j -> is_expanded (<[i := b]> obj) j = is_expanded obj j.
Proof. intros Hij. unfold is_expanded. by rewrite lookup_insert_ne. Qed.

(** X1. Toggling two different rows gives the same state in either
    order. *)
Theorem toggleRowExpansion_commute (i j : jsstring) (st : State) :
  i <> j ->
  toggleRowExpansion i (toggleRowExpansion j st)
  = toggleRowExpansion j (toggleRowExpansion i st).
Proof.
  intros Hij. destruct st.
  unfold toggleRowExpansion, setExpandedRows; cbn [expandedRows].
  f_equal.
  rewrite (is_expanded_insert_ne _ j i), (is_expanded_insert_ne _ i j) by done.
  by apply insert_insert_ne.
Qed.

Lemma toggleRowExpansion_commute_witness :
  toggleRowExpansion (js "TC-001") (toggleRowExpansion (js "TC-002") initial)
  = toggleRowExpansion (js "TC-002") (toggleRowExpansion (js "TC-001") initial).
Proof.
  apply toggleRowExpansion_commute. vm_compute. discriminate.
Defined.

(** X2. Once a row has an entry of its own in the expansion map, two
    toggles of it restore the whole state; in any state three toggles of a
    row amount to one. *)
Theorem toggleRowExpansion_round_trip (id : jsstring) (st : State) :
  (is_Some (expandedRows st !! id) ->
     toggleRowExpansion id (toggleRowExpansion id st) = st)
  /\ toggleRowExpansion id (toggleRowExpansion id (toggleRowExpansion id st))
     = toggleRowExpansion id st.
Proof.
  assert (Hown : forall st' : State,
             is_Some (expandedRows st' !! id) ->
             toggleRowExpansion id (toggleRowExpansion id st') = st').
  { intros st' [b Hb]. destruct st'.
    unfold toggleRowExpansion, setExpandedRows; cbn [expandedRows] in *.
    f_equal. rewrite is_expanded_insert, insert_insert_eq.
    unfold is_expanded. rewrite Hb, negb_involutive. by apply insert_id. }
  split; [apply Hown|].
  apply Hown. unfold toggleRowExpansion, setExpandedRows; cbn [expandedRows].
  rewrite lookup_insert_eq. by eexists.
Qed.

Lemma toggleRowExpansion_round_trip_witness :
  toggleRowExpansion (js "TC-001")
    (toggleRowExpansion (js "TC-001") (toggleRowExpansion (js "TC-001") initial))
  = toggleRowExpansion (js "TC-001") initial
  /\ toggleRowExpansion (js "TC-002")
       (toggleRowExpansion (js "TC-002")
          (toggleRowExpansion (js "TC-002") initial))
     = toggleRowExpansion (js "TC-002") initial.
Proof.
  split.
  - apply (toggleRowExpansion_round_trip (js "TC-001")
             (toggleRowExpansion (js "TC-001") initial)).
    by eexists.
  - apply toggleRowExpansion_round_trip.
Defined.

(** ** Navigation, continued *)

(** X3. Next then Back returns to the same state from every tab but the
    last, and Back then Next from every tab but the first. *)
Theorem goNext_goPrev_inverse (st : State) :
  ((0 <= activeTab st <= 4)%Z -> goPrev (goNext st) = st)
  /\ ((1 <= activeTab st <= 5)%Z -> goNext (goPrev st) = st).
Proof.
  split; intros Htab; destruct st;
    unfold goNext, goPrev, setActiveTab; simpl in *; f_equal; lia.
Qed.

Lemma goNext_goPrev_inverse_witness :
  goPrev (goNext initial) = initial
  /\ goNext (goPrev (goNext initial)) = goNext initial.
Proof.
  split.
  - apply goNext_goPrev_inverse. simpl. lia.
  - apply goNext_goPrev_inverse. simpl. lia.
Defined.

(** X4. From a tab in range, [n] clicks on Next lead to tab
    [min (tab + n) 5] and [n] clicks on Back to tab [max (tab - n) 0]: the
    ends of the tab bar absorb the surplus. *)
Theorem goNext_goPrev_iterated (n : nat) (st : State) :
  (0 <= activeTab st <= 5)%Z ->
  activeTab (Nat.iter n goNext st) = Z.min (activeTab st + Z.of_nat n) 5
  /\ activeTab (Nat.iter n goPrev st) = Z.max (activeTab st - Z.of_nat n) 0.
Proof.
  intros Htab. induction n as [|n [IHnext IHprev]]; simpl.
  - lia.
  - rewrite IHnext, IHprev. lia.
Qed.

Lemma goNext_goPrev_iterated_witness :
  activeTab (Nat.iter 9 goNext initial) = 5%Z
  /\ activeTab (Nat.iter 2 goPrev (Nat.iter 3 goNext initial)) = 1%Z.
Proof.
  split.
  - apply (goNext_goPrev_iterated 9 initial). simpl. lia.
  - apply (goNext_goPrev_iterated 2 (Nat.iter 3 goNext initial)). simpl. lia.
Defined.

(** ** The handlers and the network *)

(** The request of [parseRequirements], as a function of its arguments. *)
Lemma parseRequirements_requests (env : field jsstring)
    (net : Request -> FetchResult) (withFeedback : bool) (st : State) :
  exists r,
    endpoint env (js "/requirements/parse") r
    /\ requests (run net (parseRequirements env withFeedback st) st)
       = if negb (bool_decide (is_Some (file st))) && negb withFeedback
         then [] else [r].
Proof.
  unfold parseRequirements.
  destruct (_ && _).
  - by eexists {| url := _; method := _; headers := []; body := FormData [] |}.
  - simpl. eexists; split; [|answer net; destruct withFeedback; reflexivity].
    by split.
Qed.

(** X5. Whatever the network answers, a handler that gets to its [fetch]
    sends exactly one request, a POST to its own endpoint under
    [API_BASE], and sends no second one. *)
Theorem handlers_send_one_request (env : field jsstring)
    (net : Request -> FetchResult) (st : State) :
  (forall withFeedback,
      is_Some (file st) \/ withFeedback = true ->
      exists r, endpoint env (js "/requirements/parse") r
                /\ requests (run net (parseRequirements env withFeedback st) st)
                   = [r])
  /\ (forall withFeedback,
         exists r, endpoint env (js "/testcases/generate") r
                   /\ requests (run net (generateTestCases env withFeedback st) st)
                      = [r])
  /\ (exists r, endpoint env (js "/export/jira") r
                /\ requests (run net (exportToJira env st) st) = [r])
  /\ (forall format,
         exists r, endpoint env (js "/export/" ++ format) r
                   /\ requests (run net (exportToFormat env format st) st) = [r]).
Proof.
  split; [|split; [|split]].
  - intros wf Hguard.
    destruct (parseRequirements_requests env net wf st) as (r & Hr & Hreq).
    exists r. split; [done|]. rewrite Hreq.
    destruct Hguard as [Hfile | ->].
    + by rewrite bool_decide_eq_true_2.
    + by rewrite andb_false_r.
  - intros wf. unfold generateTestCases. simpl.
    eexists; split; [|answer net; destruct wf; reflexivity]. by split.
  - unfold exportToJira. simpl.
    eexists; split; [|answer net; simpl; reflexivity]. by split.
  - intros format. unfold exportToFormat. simpl.
    eexists; split; [|answer net; simpl; reflexivity]. by split.
Qed.

Lemma handlers_send_one_request_witness :
  exists r,
    endpoint Undefined (js "/requirements/parse") r
    /\ requests (run (fun _ => Rejected {| message := js "Failed to fetch" |})
                   (parseRequirements Undefined true initial) initial)
       = [r].
Proof.
  apply (handlers_send_one_request Undefined _ initial). by right.
Defined.

(** Each handler writes its own cells only, whatever the network
    answers. *)
Lemma parseRequirements_frame (env : field jsstring)
    (net : Request -> FetchResult) (withFeedback : bool) (st : State) :
  let o := run net (parseRequirements env withFeedback st) st in
  o = untouched st
  \/ exists raw reqs s fb,
       final o = setIsParsing false
                   (setReqFeedback fb
                      (setStatus s (setRequirements reqs (setRawText raw st)))).
Proof.
  unfold parseRequirements.
  destruct (_ && _); [by left|right]. simpl.
  answer net; destruct withFeedback; simpl;
    match goal with
    | |- exists raw reqs s fb, ?o = _ =>
        exists (rawText o), (requirements o), (status o), (reqFeedback o)
    end; by destruct st.
Qed.

Lemma generateTestCases_frame (env : field jsstring)
    (net : Request -> FetchResult) (withFeedback : bool) (st : State) :
  let o := run net (generateTestCases env withFeedback st) st in
  exists tcs s fb,
    final o = setIsGenerating false
                (setFeedback fb (setStatus s (setTestCases tcs st))).
Proof.
  unfold generateTestCases. simpl.
  answer net; destruct withFeedback; simpl;
    match goal with
    | |- exists tcs s fb, ?o = _ =>
        exists (testCases o), (status o), (feedback o)
    end; by destruct st.
Qed.

Lemma exportToJira_frame (env : field jsstring)
    (net : Request -> FetchResult) (st : State) :
  let o := run net (exportToJira env st) st in
  exists s, final o = setIsExporting false (setStatus s st).
Proof.
  unfold exportToJira. simpl.
  answer net; simpl;
    match goal with |- exists s, ?o = _ => exists (status o) end;
    by destruct st.
Qed.

Lemma exportToFormat_frame (env : field jsstring)
    (net : Request -> FetchResult) (format : jsstring) (st : State) :
  let o := run net (exportToFormat env format st) st in
  exists s, final o = setIsExporting false (setStatus s st).
Proof.
  unfold exportToFormat. simpl.
  answer net; simpl;
    match goal with |- exists s, ?o = _ => exists (status o) end;
    by destruct st.
Qed.

(** X6. Whatever the network answers, and whether the handler returns or
    throws, a handler leaves every cell alone but its own:
    [parseRequirements] writes the raw text, the requirements, the status,
    the requirements feedback and its busy flag; [generateTestCases] the
    test cases, the status, the feedback and its busy flag; the two
    exports only the status and their busy flag. The busy flag is always
    back to false at the end. *)
Theorem handlers_frame (env : field jsstring)
    (net : Request -> FetchResult) (st : State) :
  (forall withFeedback,
      let o := run net (parseRequirements env withFeedback st) st in
      o = untouched st
      \/ exists raw reqs s fb,
           final o = setIsParsing false
                       (setReqFeedback fb
                          (setStatus s
                             (setRequirements reqs (setRawText raw st)))))
  /\ (forall withFeedback,
         let o := run net (generateTestCases env withFeedback st) st in
         exists tcs s fb,
           final o = setIsGenerating false
                       (setFeedback fb (setStatus s (setTestCases tcs st))))
  /\ (let o := run net (exportToJira env st) st in
      exists s, final o = setIsExporting false (setStatus s st))
  /\ (forall format,
         let o := run net (exportToFormat env format st) st in
         exists s, final o = setIsExporting false (setStatus s st)).
Proof.
  split; [|split; [|split]].
  - intros wf. apply parseRequirements_frame.
  - intros wf. apply generateTestCases_frame.
  - apply exportToJira_frame.
  - intros format. apply exportToFormat_frame.
Qed.

(** X7. When the call fails ([fetch] rejects, the response is not OK, or
    its body is not JSON), [parseRequirements] returns normally with the
    raw text, the requirements and the typed feedback as they were, and the
    status line reads "Parse failed: " followed by the error's message, the
    text of the non-OK response, or a fixed text when that is empty. *)
Theorem parseRequirements_reports_failure (env : field jsstring)
    (x : FetchResult) (withFeedback : bool) (st : State) :
  is_Some (file st) \/ withFeedback = true ->
  parse_fails x = true ->
  let o := run (fun _ => x) (parseRequirements env withFeedback st) st in
  status (final o) = js "Parse failed: " ++ parse_failure_message x
  /\ requirements (final o) = requirements st
  /\ rawText (final o) = rawText st
  /\ reqFeedback (final o) = reqFeedback st
  /\ result o = inr tt.
Proof.
  intros Hguard Hfails. unfold parseRequirements.
  replace (negb (bool_decide (is_Some (file st))) && negb withFeedback)
    with false.
  2:{ destruct Hguard as [Hfile | ->];
        [by rewrite bool_decide_eq_true_2 | by rewrite andb_false_r]. }
  destruct x as [e|[[] text [e|data] blob]]; simpl in *;
    try discriminate Hfails; done.
Qed.

Lemma parseRequirements_reports_failure_witness :
  status (final (run (fun _ => Resolved {| ok := false; res_text := [];
                                           res_json := inr error_body;
                                           res_blob := [] |})
                   (parseRequirements Undefined true (upload_review (js "Split REQ-1")))
                   (upload_review (js "Split REQ-1"))))
  = js "Parse failed: Failed to parse requirements".
Proof.
  apply (parseRequirements_reports_failure Undefined
           (Resolved {| ok := false; res_text := [];
                        res_json := inr error_body; res_blob := [] |})
           true (upload_review (js "Split REQ-1"))).
  - by right.
  - reflexivity.
Defined.

(** X8. When the response is OK and its body is a JSON object,
    [parseRequirements] installs the body's requirements (the empty list
    when the body has none), takes the body's raw text unless it is absent
    or empty (then the old raw text stays), reports success, and on a
    refine clears the typed feedback. *)
Theorem parseRequirements_installs (env : field jsstring)
    (res : Response) (data : JsonData) (withFeedback : bool) (st : State) :
  is_Some (file st) \/ withFeedback = true ->
  ok res = true ->
  res_json res = inr data ->
  let o := run (fun _ => Resolved res) (parseRequirements env withFeedback st) st in
  requirements (final o) = or_empty (data_requirements data)
  /\ rawText (final o) = or_else (data_raw_text data) (rawText st)
  /\ status (final o) = (if withFeedback then js "Requirements refined."
                         else js "Parsed.")
  /\ reqFeedback (final o) = (if withFeedback then [] else reqFeedback st)
  /\ (data_requirements data = Undefined -> requirements (final o) = [])
  /\ (data_raw_text data = Val [] -> rawText (final o) = rawText st)
  /\ result o = inr tt.
Proof.
  intros Hguard Hok Hjson. unfold parseRequirements.
  replace (negb (bool_decide (is_Some (file st))) && negb withFeedback)
    with false.
  2:{ destruct Hguard as [Hfile | ->];
        [by rewrite bool_decide_eq_true_2 | by rewrite andb_false_r]. }
  simpl. rewrite Hok. simpl. unfold json. rewrite Hjson.
  destruct withFeedback; simpl; repeat split; by intros ->.
Qed.

Lemma parseRequirements_installs_witness :
  requirements
    (final (run (fun _ => Resolved (ok_response error_body))
              (parseRequirements Undefined true (upload_review (js "Split REQ-1")))
              (upload_review (js "Split REQ-1"))))
  = [].
Proof.
  apply (parseRequirements_installs Undefined (ok_response error_body)
           error_body true (upload_review (js "Split REQ-1")));
    first [by right | reflexivity].
Defined.

(** X9. [generateTestCases] never looks at [res.ok]: whenever the body of
    the response is a JSON object, OK or not, it installs the body's test
    cases (the empty list when the body has none), reports success and, on
    a refine, clears the typed feedback. *)
Theorem generateTestCases_installs (env : field jsstring)
    (res : Response) (data : JsonData) (withFeedback : bool) (st : State) :
  res_json res = inr data ->
  let o := run (fun _ => Resolved res) (generateTestCases env withFeedback st) st in
  testCases (final o) = or_empty (data_test_cases data)
  /\ status (final o) = (if withFeedback then js "Test cases refined."
                         else js "Generated.")
  /\ feedback (final o) = (if withFeedback then [] else feedback st)
  /\ isGenerating (final o) = false
  /\ result o = inr tt.
Proof.
  intros Hjson. unfold generateTestCases. simpl. unfold json. rewrite Hjson.
  by destruct withFeedback.
Qed.

Lemma generateTestCases_installs_witness :
  testCases
    (final (run (fun _ => Resolved (ok_response (test_cases_body [bare_test_case])))
              (generateTestCases Undefined false (generate_review [] []))
              (generate_review [] [])))
  = [bare_test_case].
Proof.
  apply (generateTestCases_installs Undefined
           (ok_response (test_cases_body [bare_test_case]))
           (test_cases_body [bare_test_case]) false (generate_review [] [])).
  reflexivity.
Defined.

(** X10. When [fetch] rejects or the body of the response is not JSON,
    [generateTestCases] throws the error to its caller: the test cases and
    the typed feedback stay, the busy flag is reset, and the status line
    keeps the text of a call under way. *)
Theorem generateTestCases_throws (env : field jsstring)
    (x : FetchResult) (e : JsError) (withFeedback : bool) (st : State) :
  x = Rejected e \/ (exists res, x = Resolved res /\ res_json res = inl e) ->
  let o := run (fun _ => x) (generateTestCases env withFeedback st) st in
  result o = inl e
  /\ testCases (final o) = testCases st
  /\ feedback (final o) = feedback st
  /\ isGenerating (final o) = false
  /\ status (final o) = (if withFeedback
                         then js "Refining test cases with feedback..."
                         else js "Generating test cases...").
Proof.
  intros [-> | (res & -> & Hjson)]; unfold generateTestCases; simpl.
  - by destruct withFeedback.
  - unfold json. rewrite Hjson. by destruct withFeedback.
Qed.

Lemma generateTestCases_throws_witness :
  result (run (fun _ => Rejected {| message := js "Failed to fetch" |})
            (generateTestCases Undefined false (generate_review [] []))
            (generate_review [] []))
  = inl {| message := js "Failed to fetch" |}.
Proof.
  apply (generateTestCases_throws Undefined
           (Rejected {| message := js "Failed to fetch" |})
           {| message := js "Failed to fetch" |} false (generate_review [] [])).
  by left.
Defined.

(** ** Exports *)


Lemma extensions_lookup_other (format : jsstring) :
  format ∉ export_buttons -> extensions !! format = None.
Proof.
  unfold export_buttons, extensions.
  rewrite !not_elem_of_cons. intros (H1 & H2 & H3 & _).
  rewrite !lookup_insert_ne by done. by apply lookup_singleton_ne.
Qed.

(** X12. For a format that is none of csv, excel and json (and no inherited
    property name), the downloaded file takes the format itself as its
    extension. *)
Theorem download_name_fallback (format : jsstring) :
  format ∉ export_buttons ->
  format ∉ object_prototype_keys ->
  download_name format = js "test_cases." ++ format.
Proof.
  intros Hformat _. unfold download_name.
  rewrite (extensions_lookup_other _ Hformat). simpl.
  by destruct format.
Qed.

Lemma download_name_fallback_witness :
  download_name (js "pdf") = js "test_cases.pdf".
Proof.
  apply (download_name_fallback (js "pdf"));
    apply (bool_decide_unpack _); by vm_compute.
Defined.

(** X25. [exportToJira] never looks at [res.ok]: whenever the body of the
    response is a JSON object, the status line becomes
    "{status}: {message}" of that body and the handler returns normally; a
    body with neither property, such as an error body, shows as
    "undefined: undefined". *)
Theorem exportToJira_shows_reply (env : field jsstring) (res : Response)
    (data : JsonData) (st : State) :
  res_json res = inr data ->
  let o := run (reply res) (exportToJira env st) st in
  status (final o)
  = to_template (data_status data) ++ js ": " ++ to_template (data_message data)
  /\ (data_status data = Undefined -> data_message data = Undefined ->
      status (final o) = js "undefined: undefined")
  /\ result o = inr tt.
Proof.
  intros Hjson. unfold exportToJira, reply. simpl. unfold json.
  rewrite Hjson. simpl. repeat split. by intros -> ->.
Qed.

Lemma exportToJira_shows_reply_witness :
  status (final (run (reply {| ok := false; res_text := [];
                               res_json := inr error_body; res_blob := [] |})
                   (exportToJira Undefined (generate_review [bare_test_case] []))
                   (generate_review [bare_test_case] [])))
  = js "undefined: undefined".
Proof.
  destruct (exportToJira_shows_reply Undefined
              {| ok := false; res_text := []; res_json := inr error_body;
                 res_blob := [] |}
              error_body (generate_review [bare_test_case] []) eq_refl)
    as (_ & Hundefined & _).
  by apply Hundefined.
Defined.

(** ** Buttons *)

(** X13. "Parse Requirements" does nothing without a selected file or
    while a parse is under way; otherwise it sends one request that carries
    the file and nothing else, whatever feedback is typed. *)
Theorem parseButton_click (env : field jsstring)
    (net : Request -> FetchResult) (st : State) :
  (file st = None \/ isParsing st = true ->
     run net (click (parseButton env st)) st = untouched st)
  /\ (forall f,
        activeTab st = 0%Z -> file st = Some f -> isParsing st = false ->
        requests (run net (click (parseButton env st)) st)
        = [parse_request env f]).
Proof.
  unfold parseButton. split.
  - intros Hoff. destruct (_ =? _)%Z; [|done]. simpl.
    destruct Hoff as [-> | ->]; [done|]. by rewrite orb_true_r.
  - intros f -> Hfile ->. simpl. rewrite Hfile. simpl.
    unfold parseRequirements. rewrite Hfile. simpl.
    answer net; reflexivity.
Qed.

Lemma parseButton_click_witness :
  run (fun _ => Rejected {| message := js "Failed to fetch" |})
      (click (parseButton Undefined (upload_review (js "Split REQ-1"))))
      (upload_review (js "Split REQ-1"))
  = untouched (upload_review (js "Split REQ-1"))
  /\ requests
       (run (fun _ => Rejected {| message := js "Failed to fetch" |})
          (click (parseButton Undefined
                    (onFileChange [{| file_name := js "reqs.md";
                                      file_bytes := [35; 32; 65] |}]
                       (upload_review (js "Split REQ-1")))))
          (onFileChange [{| file_name := js "reqs.md";
                            file_bytes := [35; 32; 65] |}]
             (upload_review (js "Split REQ-1"))))
     = [parse_request Undefined
          {| file_name := js "reqs.md"; file_bytes := [35; 32; 65] |}].
Proof.
  split.
  - apply parseButton_click. by left.
  - by apply parseButton_click.
Defined.

(** X14. "Generate Test Cases" does nothing while there are no requirements
    or a generation is under way; otherwise it sends one request that
    carries the whole requirements list, at top level and in the context,
    and [null] as feedback, whatever feedback is typed. *)
Theorem generateButton_click (env : field jsstring)
    (net : Request -> FetchResult) (st : State) :
  (requirements st = [] \/ isGenerating st = true ->
     run net (click (generateButton env st)) st = untouched st)
  /\ (activeTab st = 3%Z -> requirements st <> [] ->
      isGenerating st = false ->
      requests (run net (click (generateButton env st)) st)
      = [generate_request env st None]).
Proof.
  unfold generateButton. split.
  - intros Hoff. destruct (_ =? _)%Z; [|done]. simpl.
    destruct Hoff as [-> | ->]; [done|]. by rewrite orb_true_r.
  - intros -> Hreqs ->. simpl.
    destruct (requirements st) as [|r rs] eqn:Hrs; [done|]. simpl.
    unfold generateTestCases, generate_request. rewrite Hrs. simpl.
    answer net; reflexivity.
Qed.

Lemma generateButton_click_witness :
  run (fun _ => Rejected {| message := js "Failed to fetch" |})
      (click (generateButton Undefined
                (setActiveTab (fun _ => 3%Z) initial)))
      (setActiveTab (fun _ => 3%Z) initial)
  = untouched (setActiveTab (fun _ => 3%Z) initial)
  /\ requests
       (run (fun _ => Rejected {| message := js "Failed to fetch" |})
          (click (generateButton Undefined
                    (generate_review [] (js "typed but not sent"))))
          (generate_review [] (js "typed but not sent")))
     = [generate_request Undefined
          (generate_review [] (js "typed but not sent")) None].
Proof.
  split.
  - apply generateButton_click. by left.
  - by apply generateButton_click.
Defined.

(** X15. Nothing is exported while there is nothing to export: with no test
    cases, or while an export is under way, the export buttons and the JIRA
    button do nothing, and the JIRA button does nothing without a project
    key. An accepted click sends one request that carries every test
    case. *)
Theorem export_buttons_click (env : field jsstring)
    (net : Request -> FetchResult) (st : State) (i : nat) :
  (testCases st = [] \/ isExporting st = true ->
     run net (click (exportButton env i st)) st = untouched st
     /\ run net (click (jiraButton env st)) st = untouched st)
  /\ (jiraProject st = [] ->
        run net (click (jiraButton env st)) st = untouched st)
  /\ (forall format,
        activeTab st = 4%Z -> export_buttons !! i = Some format ->
        testCases st <> [] -> isExporting st = false ->
        requests (run net (click (exportButton env i st)) st)
        = [export_request env format st])
  /\ (activeTab st = 4%Z -> testCases st <> [] -> jiraProject st <> [] ->
      isExporting st = false ->
      requests (run net (click (jiraButton env st)) st)
      = [jira_request env st]).
Proof.
  unfold exportButton, jiraButton.
  split; [|split; [|split]].
  - intros Hoff. destruct (_ =? _)%Z; [|done].
    destruct (export_buttons !! i); simpl;
      destruct Hoff as [-> | ->]; by rewrite ?orb_true_r.
  - intros ->. destruct (_ =? _)%Z; [|done]. simpl. by rewrite orb_true_r.
  - intros format Htab Hformat Htcs Hbusy.
    assert (Hlen : (length (testCases st) =? 0)%nat = false)
      by by destruct (testCases st).
    rewrite Htab, Hformat, Hlen, Hbusy.
    change (requests (run net (exportToFormat env format st) st)
            = [export_request env format st]).
    apply exportToFormat_request.
  - intros -> Htcs Hkey ->. simpl.
    destruct (testCases st) as [|tc tcs] eqn:Heq; [done|].
    destruct (jiraProject st) as [|c key] eqn:Hk; [done|]. simpl.
    unfold exportToJira, jira_request. rewrite Heq, Hk. simpl.
    answer net; reflexivity.
Qed.

Lemma export_buttons_click_witness :
  run (fun _ => Rejected {| message := js "Failed to fetch" |})
      (click (exportButton Undefined 0 (setActiveTab (fun _ => 4%Z) initial)))
      (setActiveTab (fun _ => 4%Z) initial)
  = untouched (setActiveTab (fun _ => 4%Z) initial)
  /\ requests
       (run (fun _ => Rejected {| message := js "Failed to fetch" |})
          (click (exportButton Undefined 2
                    (goNext (generate_review [bare_test_case] []))))
          (goNext (generate_review [bare_test_case] [])))
     = [export_request Undefined (js "json")
          (goNext (generate_review [bare_test_case] []))].
Proof.
  split.
  - apply export_buttons_click. by left.
  - by apply export_buttons_click.
Defined.

(** X16. A rendered refine button is disabled exactly when its feedback is
    blank or its call is under way. *)
Theorem refine_buttons_disabled (env : field jsstring) (st : State)
    (b : Button) :
  (reqFeedbackButton env st = Some b ->
     disabled b = blank (reqFeedback st) || isParsing st)
  /\ (feedbackButton env st = Some b ->
        disabled b = blank (feedback st) || isGenerating st).
Proof.
  assert (Hblank : forall s, negb (truthy (trim s)) = blank s).
  { intros s. destruct (blank s) eqn:Hs.
    - by rewrite (trim_blank _ Hs).
    - destruct (trim s) eqn:Ht; [|done].
      apply trim_empty_iff_blank in Ht. congruence. }
  unfold reqFeedbackButton, feedbackButton.
  split; destruct (_ && _); intros [= <-]; simpl; by rewrite Hblank.
Qed.

Lemma refine_buttons_disabled_witness :
  false = blank (js "Split REQ-1") || false.
Proof.
  apply (refine_buttons_disabled Undefined (upload_review (js "Split REQ-1"))
           {| disabled := false;
              onClick := parseRequirements Undefined true
                           (upload_review (js "Split REQ-1")) |}).
  reflexivity.
Defined.

(** ** The table and the cards *)

(** X17. The steps cell accounts for every step: the steps it lists are a
    prefix of the test case's steps, and together with the count of the
    "+n more steps..." line they add up to all of them; a row with at most
    two steps, or an expanded row, lists them all and has no such line; and
    of a row and the same row after a click, one lists all the steps. *)
Theorem steps_cell_accounts (st : State) (tc : TestCase)
    (l : list TestStep) :
  steps tc = Val l ->
  shown_steps st tc `prefix_of` l
  /\ (length (shown_steps st tc) + default 0 (more_steps st tc) = length l)%nat
  /\ ((length l <= 2)%nat \/ is_expanded (expandedRows st) (tc_id tc) = true ->
        shown_steps st tc = l /\ more_steps st tc = None)
  /\ (shown_steps st tc = l
      \/ shown_steps (toggleRowExpansion (tc_id tc) st) tc = l).
Proof.
  intros Hsteps. unfold shown_steps, more_steps. rewrite Hsteps.
  unfold toggleRowExpansion, setExpandedRows; cbn [expandedRows].
  rewrite is_expanded_insert.
  destruct (is_expanded (expandedRows st) (tc_id tc)); simpl.
  - repeat split; [done|lia|by left].
  - split; [apply prefix_take|].
    split.
    { rewrite length_take.
      destruct (Nat.ltb_spec 2 (length l)); cbn [from_option id]; lia. }
    split; [|by right].
    intros [Hshort | Hexp]; [|done].
    rewrite take_ge by done.
    by destruct (Nat.ltb_spec 2 (length l)); [lia|].
Qed.

Lemma steps_cell_accounts_witness :
  (length (shown_steps initial long_test_case)
   + default 0 (more_steps initial long_test_case) = 5)%nat
  /\ length (shown_steps initial long_test_case) = 2%nat.
Proof.
  destruct (steps_cell_accounts initial long_test_case _ eq_refl)
    as (_ & Hsum & _ & _).
  split; [exact Hsum | reflexivity].
Defined.




(** X19. With a template format other than exactly "table" the test cases
    are shown as cards, and a card shows no text for an absent priority,
    type or status: the defaults of the table view are not applied. *)
Theorem cards_have_no_defaults (st : State) (i : nat) (tc : TestCase) :
  templateFormat st <> js "table" ->
  testCases st !! i = Some tc ->
  exists cards c,
    results_view st = GridView cards
    /\ cards !! i = Some c
    /\ (absent (priority tc) -> card_priority c = [])
    /\ (absent (type tc) -> card_type c = [])
    /\ (absent (tc_status tc) -> card_status c = []).
Proof.
  intros Hformat Htc. unfold results_view.
  destruct (testCases st) as [|tc0 tcs] eqn:Htcs; [done|]. 
  rewrite bool_decide_eq_false_2 by done.
  cbn [length Nat.eqb].
  exists (card <$> tc0 :: tcs), (card tc). split; [done|].
  split; [by rewrite list_lookup_fmap, Htc|].
  repeat split; intros [H | H]; simpl; by rewrite H.
Qed.

Lemma cards_have_no_defaults_witness :
  exists cards c,
    results_view (setTemplateFormat (js "cards")
                    (generate_review [bare_test_case] []))
    = GridView cards
    /\ cards !! 0%nat = Some c
    /\ card_priority c = [].
Proof.
  destruct (cards_have_no_defaults
              (setTemplateFormat (js "cards")
                 (generate_review [bare_test_case] []))
              0 bare_test_case) as (cards & c & Hview & Hc & Hp & _).
  - by vm_compute.
  - reflexivity.
  - exists cards, c. repeat split; [done|done|]. apply Hp. by left.
Defined.

(** ** Links *)

Lemma drop_while_not_led {A} (p : A -> bool) (l : list A) :
  not_led_by p (drop_while p l).
Proof.
  induction l as [|x l IH]; simpl; [done|].
  by destruct (p x) eqn:Hx.
Qed.

Lemma drop_while_id {A} (p : A -> bool) (l : list A) :
  not_led_by p l -> drop_while p l = l.
Proof. destruct l as [|x l]; simpl; [done|]. by intros ->. Qed.

Lemma drop_while_snoc {A} (p : A -> bool) (l : list A) (x : A) :
  p x = false -> drop_while p (l ++ [x]) = drop_while p l ++ [x].
Proof.
  intros Hx. induction l as [|y l IH]; simpl.
  - by rewrite Hx.
  - by destruct (p y).
Qed.

Lemma trim_trimmed (s : jsstring) : trimmed (trim s).
Proof.
  unfold trimmed, trim. split.
  - pose proof (drop_while_not_led is_white_space s) as Hled.
    destruct (drop_while is_white_space s) as [|x t]; [done|].
    simpl in Hled. rewrite reverse_cons, drop_while_snoc by done.
    by rewrite reverse_app.
  - rewrite reverse_involutive. apply drop_while_not_led.
Qed.

Lemma trim_of_trimmed (s : jsstring) : trimmed s -> trim s = s.
Proof.
  intros [Hhead Hlast]. unfold trim.
  rewrite (drop_while_id _ s), (drop_while_id _ (reverse s)) by done.
  apply reverse_involutive.
Qed.

Lemma length_split_on (sep : N) (s : list N) :
  length (split_on sep s) = S (length (filter (eq sep) s)).
Proof.
  induction s as [|c s IH]; [done|]. cbn [split_on].
  destruct (N.eqb_spec c sep) as [-> | Hc].
  - rewrite filter_cons_True by done. cbn [length]. by rewrite IH.
  - rewrite filter_cons_False by done.
    destruct (split_on sep s); cbn [length] in *; [done|exact IH].
Qed.

(** X20. An empty links field is sent as [null]. A non-empty one is sent as
    a list with one entry more than the field has semicolons (so a trailing
    semicolon yields an empty last entry), each entry free of whitespace at
    both ends and unchanged by a further [trim]. *)
Theorem split_links_entries (links : jsstring) :
  (links = [] -> split_links links = None)
  /\ (links <> [] ->
      exists l,
        split_links links = Some l
        /\ length l = S (length (filter (eq 59) links))
        /\ Forall trimmed l
        /\ Forall (fun x => trim x = x) l).
Proof.
  split; [by intros ->|].
  intros Hlinks. unfold split_links.
  destruct links as [|c links]; [done|]. cbn [truthy].
  eexists. split; [done|].
  split; [rewrite length_fmap; apply length_split_on|].
  assert (Htrimmed : Forall trimmed (trim <$> split_on 59 (c :: links))).
  { apply Forall_fmap, Forall_forall. intros x _. apply trim_trimmed. }
  split; [done|].
  eapply Forall_impl; [exact Htrimmed|]. apply trim_of_trimmed.
Qed.

Lemma split_links_entries_witness :
  split_links (js " https://a.example/d1 ;https://a.example/d2;")
  = Some [js "https://a.example/d1"; js "https://a.example/d2"; []].
Proof.
  destruct (split_links_entries
              (js " https://a.example/d1 ;https://a.example/d2;"))
    as (_ & Hsome).
  destruct Hsome as (l & Hl & _); [by vm_compute|].
  by vm_compute.
Defined.

(** ** Sessions *)


(** Requests of the handlers the buttons reach. *)
Lemma parseRequirements_initial_request (env : field jsstring)
    (net : Request -> FetchResult) (f : File) (st : State) :
  file st = Some f ->
  requests (run net (parseRequirements env false st) st)
  = [parse_request env f].
Proof.
  intros Hfile. unfold parseRequirements. rewrite Hfile. simpl.
  answer net; reflexivity.
Qed.

Lemma generateTestCases_initial_request (env : field jsstring)
    (net : Request -> FetchResult) (st : State) :
  requests (run net (generateTestCases env false st) st)
  = [generate_request env st None].
Proof.
  unfold generateTestCases. simpl. answer net; reflexivity.
Qed.

Lemma exportToJira_request (env : field jsstring)
    (net : Request -> FetchResult) (st : State) :
  requests (run net (exportToJira env st) st) = [jira_request env st].
Proof.
  unfold exportToJira. simpl. answer net; reflexivity.
Qed.

Lemma blank_trim (s : jsstring) :
  truthy (trim s) = true -> blank s = false.
Proof.
  intros Ht. destruct (blank s) eqn:Hs; [|done].
  by rewrite (trim_blank _ Hs) in Ht.
Qed.

Lemma length_pos_nonempty {A} (l : list A) :
  (0 <? length l)%nat = true -> l <> [].
Proof. by destruct l. Qed.

Lemma length_zero_nonempty {A} (l : list A) :
  (length l =? 0)%nat = false -> l <> [].
Proof. by destruct l. Qed.

(** What one event sends is proper. *)
Lemma react_requests_proper (env : field jsstring)
    (net : Request -> FetchResult) (st : State) (ev : Event) :
  Forall proper_request (requests (run net (react env st ev) st)).
Proof.
  destruct ev; simpl; unfold input;
    repeat match goal with
    | |- context [issue_types !! ?i] => destruct (issue_types !! i)
    | |- context [if ?b then set _ else Ret _] => destruct b
    end; try by constructor.
  - (* Parse Requirements *)
    unfold parseButton. destruct (_ =? _)%Z; [|by constructor]. simpl.
    destruct (file st) as [f|] eqn:Hfile; simpl; [|by constructor].
    destruct (isParsing st); [by constructor|].
    rewrite (parseRequirements_initial_request _ _ f) by done.
    by repeat constructor.
  - (* Implement Changes, requirements *)
    unfold reqFeedbackButton.
    destruct (_ =? _)%Z; [|by constructor].
    destruct (0 <? _)%nat eqn:Hlen; [|by constructor]. simpl.
    destruct (truthy (trim (reqFeedback st))) eqn:Hfb; [|by constructor].
    destruct (isParsing st); [by constructor|]. simpl.
    rewrite parseRequirements_refine_request by by apply trim_truthy.
    repeat constructor. unfold proper_request, refine_requirements_request.
    cbn [body].
    pose proof (blank_trim _ Hfb). pose proof (length_pos_nonempty _ Hlen).
    by destruct (file st).
  - (* Generate Test Cases *)
    unfold generateButton. destruct (_ =? _)%Z; [|by constructor].
    cbn [click disabled onClick].
    destruct (length _ =? 0)%nat eqn:Hlen; [by constructor|].
    destruct (isGenerating st); [by constructor|]. cbn [orb].
    rewrite generateTestCases_initial_request.
    repeat constructor. by apply length_zero_nonempty.
  - (* Implement Changes, test cases *)
    unfold feedbackButton.
    destruct (_ && _); [|by constructor]. cbn [click disabled onClick].
    destruct (truthy (trim (feedback st))) eqn:Hfb; [|by constructor].
    destruct (isGenerating st); [by constructor|]. cbn [orb negb].
    rewrite generateTestCases_refine_request by by apply trim_truthy.
    repeat constructor. by apply blank_trim.
  - (* quick export *)
    unfold exportButton. destruct (_ =? _)%Z; [|by constructor].
    destruct (export_buttons !! i) as [format|]; [|by constructor].
    cbn [click disabled onClick].
    destruct (length _ =? 0)%nat eqn:Hlen; [by constructor|].
    destruct (isExporting st); [by constructor|]. cbn [orb].
    rewrite exportToFormat_request.
    repeat constructor. by apply length_zero_nonempty.
  - (* Export to JIRA *)
    unfold jiraButton. destruct (_ =? _)%Z; [|by constructor].
    cbn [click disabled onClick].
    destruct (length _ =? 0)%nat eqn:Hlen; [by constructor|].
    destruct (truthy (jiraProject st)) eqn:Hkey; [|by constructor].
    destruct (isExporting st); [by constructor|]. cbn [orb negb].
    rewrite exportToJira_request.
    repeat constructor; [|by apply length_zero_nonempty].
    cbn. by destruct (jiraProject st).
  - (* Next *)
    unfold nextButton.
    repeat (destruct (_ : bool); simpl; try by constructor).
  - (* Back *)
    unfold backButton.
    repeat (destruct (_ : bool); simpl; try by constructor).
  - (* tab bar *)
    unfold tabButton. destruct (tabs !! i); by constructor.
  - (* table row *)
    unfold tableRow. destruct (_ && _); [|by constructor].
    destruct (testCases st !! i); by constructor.
Qed.



Lemma play_snoc (env : field jsstring)
    (script : list (Event * (Request -> FetchResult)))
    (turn : Event * (Request -> FetchResult)) :
  play env (script ++ [turn]) = handle env (play env script) turn.
Proof. unfold play. by rewrite foldl_app. Qed.



(** X22. Every parse, generation and export request a session sends is
    proper: a parse carries a file and nothing else, a refine carries
    non-blank feedback, a generation a non-empty requirements list and no
    feedback, an export at least one test case, the JIRA export a project
    key as well. *)
Theorem session_requests_proper (env : field jsstring)
    (script : list (Event * (Request -> FetchResult))) :
  Forall proper_request (sent (play env script)).
Proof.
  induction script as [|turn script IH] using rev_ind.
  - constructor.
  - rewrite play_snoc. destruct turn as [ev net]. cbn [handle sent fst snd].
    apply Forall_app. split; [exact IH|apply react_requests_proper].
Qed.



(** X24. The whole workflow composes: when the backend answers the parse
    with a non-empty requirements list and the generation with a non-empty
    test-case list, the generation request carries exactly the parsed
    requirements, the export request exactly the generated test cases, the
    exported file is downloaded as test_cases.csv, and no error goes
    uncaught. *)
Theorem workflow_exports_generated_cases (env : field jsstring) (f : File)
    (raw : jsstring) (reqs : list Requirement) (tcs : list TestCase)
    (blob : Blob) :
  reqs <> [] -> tcs <> [] ->
  let s := play env (workflow f raw reqs tcs blob) in
  body <$> sent s
  = [FormData [(js "file", FormFile f)];
     JSON_stringify
       (GeneratePayload reqs
          {| name := js "default"; format := js "table";
             fields := template_fields |}
          (bare_context reqs) None);
     JSON_stringify (ExportPayload tcs)]
  /\ saved s = [(js "test_cases.csv", blob)]
  /\ uncaught s = []
  /\ requirements (now s) = reqs
  /\ testCases (now s) = tcs
  /\ activeTab (now s) = 4%Z.
Proof.
  intros Hreqs Htcs.
  destruct reqs as [|r reqs]; [done|]. destruct tcs as [|tc tcs]; [done|].
  by vm_compute.
Qed.

Lemma workflow_exports_generated_cases_witness :
  saved (play Undefined
           (workflow {| file_name := js "reqs.md"; file_bytes := [35; 32; 65] |}
              (js "# A") [sample_requirement] [bare_test_case] [105; 100]))
  = [(js "test_cases.csv", [105; 100])].
Proof.
  by apply (workflow_exports_generated_cases Undefined
              {| file_name := js "reqs.md"; file_bytes := [35; 32; 65] |}
              (js "# A") [sample_requirement] [bare_test_case] [105; 100]).
Defined.
